(** * Request authentication of the Truthlinked TypeScript SDK

    A shallow embedding of [typescript/src/crypto.ts] (class [RequestSigner],
    class [SecureLicenseKey], [sha256], [constantTimeEqual]) and of the
    signing call made by the request interceptor of [typescript/src/client.ts].

    JavaScript strings are sequences of UTF-16 code units, Node [Buffer]s are
    sequences of bytes; both are lists of [Z].  The Node primitives the
    source calls ([crypto.createHmac], [crypto.timingSafeEqual],
    [Buffer.from], [JSON.stringify]) are written out as executable
    functions so that every definition can be evaluated. *)

From Stdlib Require Import String Ascii DecimalString DecimalPos DecimalZ.
From Stdlib Require Import ZArith List Bool Lia.
Import ListNotations.
Local Open Scope Z_scope.

(** ** Strings, buffers and faults *)

Definition jsstring := list Z.
Definition Buffer := list Z.

(** A Rocq string literal read as a JavaScript string (one code unit per
    character, all below 256). *)
Definition js (s : string) : jsstring :=
  map (fun c => Z.of_N (N_of_ascii c)) (list_ascii_of_string s).
Arguments js s%_string.

(** A JavaScript string has code units in [0, 65536). *)
Definition code_unit_ok (c : Z) : Prop := 0 <= c < 65536.
Definition wf_string (s : jsstring) : Prop := Forall code_unit_ok s.

(** The faults of the modelled fragment. *)
Inductive JsError : Type :=
| RangeError
| TypeError.

(** Outcome of a call: a returned value or a thrown fault. *)
Inductive outcome (A : Type) : Type :=
| Ret (a : A)
| Throw (e : JsError).
Arguments Ret {A} a.
Arguments Throw {A} e.

Definition returns {A : Type} (o : outcome A) : bool :=
  match o with Ret _ => true | Throw _ => false end.

Definition throws {A : Type} (o : outcome A) : bool := negb (returns o).

(** ** UTF-8: [Buffer.from(s)] and [hmac.update(s)] on a string *)

Definition is_high_surrogate (c : Z) : bool := (0xD800 <=? c) && (c <=? 0xDBFF).
Definition is_low_surrogate (c : Z) : bool := (0xDC00 <=? c) && (c <=? 0xDFFF).

Definition utf8_of_code_point (cp : Z) : Buffer :=
  if cp <? 0x80 then [cp]
  else if cp <? 0x800 then
    [Z.lor 0xC0 (Z.shiftr cp 6); Z.lor 0x80 (Z.land cp 0x3F)]
  else if cp <? 0x10000 then
    [Z.lor 0xE0 (Z.shiftr cp 12);
     Z.lor 0x80 (Z.land (Z.shiftr cp 6) 0x3F);
     Z.lor 0x80 (Z.land cp 0x3F)]
  else
    [Z.lor 0xF0 (Z.shiftr cp 18);
     Z.lor 0x80 (Z.land (Z.shiftr cp 12) 0x3F);
     Z.lor 0x80 (Z.land (Z.shiftr cp 6) 0x3F);
     Z.lor 0x80 (Z.land cp 0x3F)].

(** U+FFFD, written for every unpaired surrogate. *)
Definition utf8_replacement : Buffer := [0xEF; 0xBF; 0xBD].

Fixpoint utf8_encode (s : jsstring) : Buffer :=
  match s with
  | [] => []
  | c :: rest =>
      if is_high_surrogate c then
        match rest with
        | d :: rest' =>
            if is_low_surrogate d then
              utf8_of_code_point
                (0x10000 + (c - 0xD800) * 0x400 + (d - 0xDC00))
                ++ utf8_encode rest'
            else utf8_replacement ++ utf8_encode rest
        | [] => utf8_replacement
        end
      else if is_low_surrogate c then utf8_replacement ++ utf8_encode rest
      else utf8_of_code_point c ++ utf8_encode rest
  end.

(** ** SHA-256 (FIPS 180-4), the hash behind ['sha256'] *)

Module SHA256.

Definition w32 (x : Z) : Z := Z.land x 0xFFFFFFFF.
Definition add32 (x y : Z) : Z := w32 (x + y).
Definition rotr (n x : Z) : Z :=
  Z.lor (Z.shiftr x n) (w32 (Z.shiftl x (32 - n))).
Definition not32 (x : Z) : Z := Z.lxor x 0xFFFFFFFF.

Definition Ch (x y z : Z) : Z := Z.lxor (Z.land x y) (Z.land (not32 x) z).
Definition Maj (x y z : Z) : Z :=
  Z.lxor (Z.lxor (Z.land x y) (Z.land x z)) (Z.land y z).
Definition bsig0 (x : Z) : Z := Z.lxor (Z.lxor (rotr 2 x) (rotr 13 x)) (rotr 22 x).
Definition bsig1 (x : Z) : Z := Z.lxor (Z.lxor (rotr 6 x) (rotr 11 x)) (rotr 25 x).
Definition ssig0 (x : Z) : Z := Z.lxor (Z.lxor (rotr 7 x) (rotr 18 x)) (Z.shiftr x 3).
Definition ssig1 (x : Z) : Z := Z.lxor (Z.lxor (rotr 17 x) (rotr 19 x)) (Z.shiftr x 10).

(** The constants are fractional parts of roots of the first primes:
    the first 32 bits of the fractional part of the cube root of each of
    the first 64 primes for the round constants, of the square root of
    each of the first 8 for the initial hash value. *)
Definition primes : list Z :=
  [2; 3; 5; 7; 11; 13; 17; 19; 23; 29; 31; 37; 41; 43; 47; 53; 59; 61; 67;
   71; 73; 79; 83; 89; 97; 101; 103; 107; 109; 113; 127; 131; 137; 139; 149;
   151; 157; 163; 167; 173; 179; 181; 191; 193; 197; 199; 211; 223; 227;
   229; 233; 239; 241; 251; 257; 263; 269; 271; 277; 281; 283; 293; 307;
   311].

(** The integer [k]-th root of [n], found bit by bit from bit [bits - 1]. *)
Fixpoint int_root (k n : Z) (bits : nat) (acc : Z) : Z :=
  match bits with
  | O => acc
  | S b =>
      let c := acc + 2 ^ Z.of_nat b in
      if c ^ k <=? n then int_root k n b c else int_root k n b acc
  end.

Definition frac_root (k p : Z) : Z :=
  Z.land (int_root k (p * 2 ^ (32 * k)) 40 0) 0xFFFFFFFF.

Definition K : list Z := Eval vm_compute in map (frac_root 3) primes.

(** The eight working words. *)
Record state : Type := mkState {
  sa : Z; sb : Z; sc : Z; sd : Z; se : Z; sf : Z; sg : Z; sh : Z
}.

Definition init : state :=
  Eval vm_compute in
    match map (frac_root 2) (firstn 8 primes) with
    | [a; b; c; d; e; f; g; h] => mkState a b c d e f g h
    | _ => mkState 0 0 0 0 0 0 0 0
    end.

(** Padding: a 1 bit, zeros up to 56 mod 64, the bit length on 8 bytes. *)
Definition be_bytes (n : nat) (x : Z) : Buffer :=
  map (fun i => Z.land (Z.shiftr x (8 * Z.of_nat i)) 0xFF) (rev (seq 0 n)).

Definition pad (msg : Buffer) : Buffer :=
  let len := Z.of_nat (length msg) in
  msg ++ [0x80]
      ++ repeat 0 (Z.to_nat ((55 - len) mod 64))
      ++ be_bytes 8 (8 * len).

Fixpoint be_word (bs : Buffer) (acc : Z) : Z :=
  match bs with
  | [] => acc
  | b :: bs' => be_word bs' (Z.lor (Z.shiftl acc 8) b)
  end.

(** Cut a buffer in pieces of [n] bytes; [fuel] bounds the number of pieces. *)
Fixpoint chunks (fuel n : nat) (bs : Buffer) : list Buffer :=
  match fuel with
  | O => []
  | S fuel' =>
      match bs with
      | [] => []
      | _ => firstn n bs :: chunks fuel' n (skipn n bs)
      end
  end.

Definition block_words (blk : Buffer) : list Z :=
  map (fun b => be_word b 0) (chunks 16 4 blk).

(** Message schedule, kept most recent word first. *)
Fixpoint extend (n : nat) (rw : list Z) : list Z :=
  match n with
  | O => rw
  | S n' =>
      let wt := add32 (add32 (ssig1 (nth 1 rw 0)) (nth 6 rw 0))
                      (add32 (ssig0 (nth 14 rw 0)) (nth 15 rw 0)) in
      extend n' (wt :: rw)
  end.

Definition schedule (blk : Buffer) : list Z :=
  rev (extend 48 (rev (block_words blk))).

Definition round (s : state) (kw : Z * Z) : state :=
  let t1 := add32 (add32 (add32 (sh s) (bsig1 (se s)))
                         (add32 (Ch (se s) (sf s) (sg s)) (fst kw)))
                  (snd kw) in
  let t2 := add32 (bsig0 (sa s)) (Maj (sa s) (sb s) (sc s)) in
  mkState (add32 t1 t2) (sa s) (sb s) (sc s)
          (add32 (sd s) t1) (se s) (sf s) (sg s).

Definition compress (h : state) (blk : Buffer) : state :=
  let s := fold_left round (combine K (schedule blk)) h in
  mkState (add32 (sa h) (sa s)) (add32 (sb h) (sb s))
          (add32 (sc h) (sc s)) (add32 (sd h) (sd s))
          (add32 (se h) (se s)) (add32 (sf h) (sf s))
          (add32 (sg h) (sg s)) (add32 (sh h) (sh s)).

Definition state_bytes (s : state) : Buffer :=
  be_bytes 4 (sa s) ++ be_bytes 4 (sb s) ++ be_bytes 4 (sc s)
    ++ be_bytes 4 (sd s) ++ be_bytes 4 (se s) ++ be_bytes 4 (sf s)
    ++ be_bytes 4 (sg s) ++ be_bytes 4 (sh s).

Definition digest (msg : Buffer) : Buffer :=
  let p := pad msg in
  state_bytes (fold_left compress (chunks (length p) 64 p) init).

End SHA256.

(** ** HMAC (RFC 2104): [crypto.createHmac('sha256', key).update(m).digest()] *)

Definition hmac_key_block (key : Buffer) : Buffer :=
  let k := if (64 <? length key)%nat then SHA256.digest key else key in
  k ++ repeat 0 (64 - length k)%nat.

Definition hmac_sha256 (key msg : Buffer) : Buffer :=
  let kb := hmac_key_block key in
  SHA256.digest (map (Z.lxor 0x5c) kb
                   ++ SHA256.digest (map (Z.lxor 0x36) kb ++ msg)).

(** ** Hexadecimal text: [digest('hex')] *)

Definition hex_digit (n : Z) : Z :=
  if n <? 10 then 48 + n else 87 + n.

Definition hex_encode (bs : Buffer) : jsstring :=
  flat_map (fun b => [hex_digit (Z.shiftr b 4); hex_digit (Z.land b 0xF)]) bs.

(** [sha256(data)] of crypto.ts, on a string argument. *)
Definition sha256 (data : jsstring) : jsstring :=
  hex_encode (SHA256.digest (utf8_encode data)).

(** ** Base64: [digest('base64')] and [Buffer.from(s, 'base64')] *)

Definition b64_char (n : Z) : Z :=
  if n <? 26 then 65 + n
  else if n <? 52 then 71 + n
  else if n <? 62 then n - 4
  else if n =? 62 then 43
  else 47.

Fixpoint base64_encode (bs : Buffer) : jsstring :=
  match bs with
  | [] => []
  | [a] =>
      [b64_char (Z.shiftr a 2); b64_char (Z.shiftl (Z.land a 3) 4); 61; 61]
  | [a; b] =>
      [b64_char (Z.shiftr a 2);
       b64_char (Z.lor (Z.shiftl (Z.land a 3) 4) (Z.shiftr b 4));
       b64_char (Z.shiftl (Z.land b 15) 2); 61]
  | a :: b :: c :: rest =>
      b64_char (Z.shiftr a 2)
      :: b64_char (Z.lor (Z.shiftl (Z.land a 3) 4) (Z.shiftr b 4))
      :: b64_char (Z.lor (Z.shiftl (Z.land b 15) 2) (Z.shiftr c 6))
      :: b64_char (Z.land c 63)
      :: base64_encode rest
  end.

(** Node's decoder never fails.  It reads every code unit by its low byte,
    accepts the standard and the URL-safe alphabet, skips every other unit
    and stops at the first [=]. *)
Definition low_byte (c : Z) : Z := Z.land c 0xFF.

Definition unbase64 (c : Z) : option Z :=
  let b := low_byte c in
  if (65 <=? b) && (b <=? 90) then Some (b - 65)
  else if (97 <=? b) && (b <=? 122) then Some (b - 71)
  else if (48 <=? b) && (b <=? 57) then Some (b + 4)
  else if (b =? 43) || (b =? 45) then Some 62
  else if (b =? 47) || (b =? 95) then Some 63
  else None.

Fixpoint sextets (s : jsstring) : list Z :=
  match s with
  | [] => []
  | c :: rest =>
      if low_byte c =? 61 then []
      else match unbase64 c with
           | Some v => v :: sextets rest
           | None => sextets rest
           end
  end.

Fixpoint bytes_of_sextets (l : list Z) : Buffer :=
  match l with
  | a :: b :: c :: d :: rest =>
      Z.lor (Z.shiftl a 2) (Z.shiftr b 4)
      :: Z.lor (Z.shiftl (Z.land b 15) 4) (Z.shiftr c 2)
      :: Z.lor (Z.shiftl (Z.land c 3) 6) d
      :: bytes_of_sextets rest
  | [a; b; c] =>
      [Z.lor (Z.shiftl a 2) (Z.shiftr b 4);
       Z.lor (Z.shiftl (Z.land b 15) 4) (Z.shiftr c 2)]
  | [a; b] => [Z.lor (Z.shiftl a 2) (Z.shiftr b 4)]
  | _ => []
  end.

Definition base64_decode (s : jsstring) : Buffer := bytes_of_sextets (sextets s).

(** ** [crypto.timingSafeEqual]: a fault on buffers of different byte
    length, otherwise the accumulated bitwise difference of all positions. *)

Definition timingSafeEqual (a b : Buffer) : outcome bool :=
  if (length a =? length b)%nat
  then Ret (fold_left Z.lor (map (fun p => Z.lxor (fst p) (snd p)) (combine a b)) 0 =? 0)
  else Throw RangeError.

(** ** Numbers and values *)

(** [n.toString()] of an integer. *)
Definition decimal (z : Z) : jsstring := js (NilZero.string_of_int (Z.to_int z)).

(** The values a request body takes: JSON-like trees and [undefined].
    Numbers are the integer-valued ones of magnitude below 10^21, whose
    text is the plain decimal; an object lists its own enumerable
    properties in enumeration order.  Values on which [JSON.stringify]
    itself throws (cycles, BigInt) are outside this type. *)
#[local] Set Warnings "-register-all".
Inductive JsValue : Type :=
| JUndefined
| JNull
| JBool (b : bool)
| JNum (z : Z)
| JStr (s : jsstring)
| JArr (items : list JsValue)
| JObj (fields : list (jsstring * JsValue)).

(** The condition [body ? ... : ...]. *)
Definition ToBoolean (v : JsValue) : bool :=
  match v with
  | JUndefined | JNull => false
  | JBool b => b
  | JNum z => negb (z =? 0)
  | JStr s => negb (length s =? 0)%nat
  | JArr _ | JObj _ => true
  end.

Definition hex4 (c : Z) : jsstring :=
  [hex_digit (Z.land (Z.shiftr c 12) 0xF); hex_digit (Z.land (Z.shiftr c 8) 0xF);
   hex_digit (Z.land (Z.shiftr c 4) 0xF); hex_digit (Z.land c 0xF)].

Definition escape_unit (c : Z) : jsstring := [92; 117] ++ hex4 c.

Fixpoint quote_units (s : jsstring) : jsstring :=
  match s with
  | [] => []
  | c :: rest =>
      if c =? 34 then [92; 34] ++ quote_units rest
      else if c =? 92 then [92; 92] ++ quote_units rest
      else if c =? 8 then [92; 98] ++ quote_units rest
      else if c =? 9 then [92; 116] ++ quote_units rest
      else if c =? 10 then [92; 110] ++ quote_units rest
      else if c =? 12 then [92; 102] ++ quote_units rest
      else if c =? 13 then [92; 114] ++ quote_units rest
      else if c <? 32 then escape_unit c ++ quote_units rest
      else if is_high_surrogate c then
        match rest with
        | d :: rest' =>
            if is_low_surrogate d then c :: d :: quote_units rest'
            else escape_unit c ++ quote_units rest
        | [] => escape_unit c
        end
      else if is_low_surrogate c then escape_unit c ++ quote_units rest
      else c :: quote_units rest
  end.

Definition quote (s : jsstring) : jsstring := [34] ++ quote_units s ++ [34].

Fixpoint join_comma (parts : list jsstring) : jsstring :=
  match parts with
  | [] => []
  | [p] => p
  | p :: ps => p ++ [44] ++ join_comma ps
  end.

(** [JSON.stringify(v)]; [None] stands for the result [undefined]. *)
Fixpoint JSON_stringify (v : JsValue) : option jsstring :=
  match v with
  | JUndefined => None
  | JNull => Some (js "null")
  | JBool true => Some (js "true")
  | JBool false => Some (js "false")
  | JNum z => Some (decimal z)
  | JStr s => Some (quote s)
  | JArr items =>
      Some ([91]
              ++ join_comma
                   (map (fun x => match JSON_stringify x with
                                  | Some t => t
                                  | None => js "null"
                                  end) items)
              ++ [93])
  | JObj fields =>
      Some ([123]
              ++ join_comma
                   (flat_map (fun kv => match kv with
                                        | (k, x) =>
                                            match JSON_stringify x with
                                            | Some t => [quote k ++ [58] ++ t]
                                            | None => []
                                            end
                                        end) fields)
              ++ [125])
  end.

(** A value of type [string | undefined] inside a template literal. *)
Definition template_text (o : option jsstring) : jsstring :=
  match o with
  | Some s => s
  | None => js "undefined"
  end.

(** [s.toUpperCase()], on the ASCII letters; other code units are kept. *)
Definition toUpperCase (s : jsstring) : jsstring :=
  map (fun c => if (97 <=? c) && (c <=? 122) then c - 32 else c) s.

(** ** Sequencing of calls that may throw *)

Definition bind {A B : Type} (o : outcome A) (k : A -> outcome B) : outcome B :=
  match o with
  | Ret a => k a
  | Throw e => Throw e
  end.

Notation "x <- o ;; k" := (bind o (fun x => k))
  (at level 61, o at next level, right associativity).

(** ** class RequestSigner *)

Module RequestSigner.

Record t : Type := mk { signingKey : Buffer }.

Record Signed : Type := mkSigned { timestamp : jsstring; signature : jsstring }.

(** The domain-separation label of the constructor. *)
Definition label : jsstring := js "truthlinked-request-signing-v1".

Definition constructor (licenseKey : jsstring) : outcome t :=
  Ret (mk (hmac_sha256 (utf8_encode label) (utf8_encode licenseKey))).

(** [`${method}\n${path}\n${timestamp}\n${body}`] *)
Definition message (method path timestamp body : jsstring) : jsstring :=
  method ++ [10] ++ path ++ [10] ++ timestamp ++ [10] ++ body.

(** [Math.floor(Date.now() / 1000).toString()], [now] being the integer
    number of milliseconds [Date.now()] returned. *)
Definition clock_seconds (now : Z) : jsstring := decimal (now / 1000).

(** [body ? JSON.stringify(body) : ''] as it appears in the template. *)
Definition bodyStr (body : JsValue) : jsstring :=
  if ToBoolean body then template_text (JSON_stringify body) else [].

Definition mac (self : t) (msg : jsstring) : jsstring :=
  base64_encode (hmac_sha256 (signingKey self) (utf8_encode msg)).

(** [sign(method, path, body?)]: the clock is the only source of the
    timestamp. *)
Definition sign (now : Z) (self : t) (method path : jsstring) (body : JsValue)
  : outcome Signed :=
  let timestamp := clock_seconds now in
  let message := message method path timestamp (bodyStr body) in
  let signature := mac self message in
  Ret (mkSigned timestamp signature).

Definition verify (self : t) (method path body signature timestamp : jsstring)
  : outcome bool :=
  let message := message method path timestamp body in
  let expected := mac self message in
  timingSafeEqual (base64_decode signature) (base64_decode expected).

(** [this.signingKey.fill(0)] *)
Definition destroy (self : t) : outcome t :=
  Ret (mk (map (fun _ => 0) (signingKey self))).

End RequestSigner.

(** ** class SecureLicenseKey *)

Module SecureLicenseKey.

Record t : Type := mk { key : jsstring }.

Definition constructor (key : jsstring) : outcome t := Ret (mk key).

Definition asString (self : t) : jsstring := key self.

(** [slice(0, 3)] and [slice(-3)] *)
Definition redacted (self : t) : jsstring :=
  let len := length (key self) in
  if (8 <? len)%nat
  then firstn 3 (key self) ++ js "..." ++ skipn (len - 3) (key self)
  else js "***".

(** ['\0'.repeat(this.key.length)] *)
Definition destroy (self : t) : outcome t :=
  Ret (mk (repeat 0 (length (key self)))).

Definition toString (self : t) : jsstring := redacted self.

End SecureLicenseKey.

(** ** [constantTimeEqual] *)

Definition constantTimeEqual (a b : jsstring) : outcome bool :=
  if negb (length a =? length b)%nat then Ret false
  else timingSafeEqual (utf8_encode a) (utf8_encode b).

(** ** The signing call of the request interceptor (client.ts) *)

Definition interceptor_sign (now : Z) (signer : option RequestSigner.t)
    (method url : jsstring) (data : JsValue)
  : outcome (option RequestSigner.Signed) :=
  match signer with
  | Some s =>
      if negb (length method =? 0)%nat && negb (length url =? 0)%nat
      then r <- RequestSigner.sign now s (toUpperCase method) url data ;;
           Ret (Some r)
      else Ret None
  | None => Ret None
  end.

(** ** The canonical message in the words of the specification *)

(** [UPPERCASE(method) + "\n" + path + "\n" + decimal(timestamp) + "\n" +
    body_or_empty], to be compared with [RequestSigner.message]. *)
Definition spec_canonical_message (method path timestamp body : jsstring)
  : jsstring :=
  toUpperCase method ++ [10] ++ path ++ [10] ++ timestamp ++ [10] ++ body.

(** The four texts that make a canonical message. *)
Record Fields : Type := mkFields {
  f_method : jsstring;
  f_path : jsstring;
  f_timestamp : jsstring;
  f_body : jsstring
}.

(** The fields [sign] works with when the clock shows [now]. *)
Definition sign_fields (now : Z) (method path : jsstring) (body : JsValue)
  : Fields :=
  mkFields method path (RequestSigner.clock_seconds now)
           (RequestSigner.bodyStr body).

Definition fields_message (f : Fields) : jsstring :=
  RequestSigner.message (f_method f) (f_path f) (f_timestamp f) (f_body f).

(** Two field assignments that differ in exactly one field. *)
Definition one_field_differs (x y : Fields) : Prop :=
  (f_method x <> f_method y /\ f_path x = f_path y
   /\ f_timestamp x = f_timestamp y /\ f_body x = f_body y)
  \/ (f_method x = f_method y /\ f_path x <> f_path y
      /\ f_timestamp x = f_timestamp y /\ f_body x = f_body y)
  \/ (f_method x = f_method y /\ f_path x = f_path y
      /\ f_timestamp x <> f_timestamp y /\ f_body x = f_body y)
  \/ (f_method x = f_method y /\ f_path x = f_path y
      /\ f_timestamp x = f_timestamp y /\ f_body x <> f_body y).

(** ** [generateNonce] *)

(** [crypto.randomBytes(32).toString('hex')]; [random] is the buffer that
    [crypto.randomBytes(32)] returned. *)
Definition generateNonce (random : Buffer) : jsstring := hex_encode random.

(** A character of the class [0-9a-f]. *)
Definition is_hex_char (c : Z) : bool :=
  ((48 <=? c) && (c <=? 57)) || ((97 <=? c) && (c <=? 102)).

(** The value of a hexadecimal digit, for the proofs. *)
Definition unhex (c : Z) : Z := if c <? 58 then c - 48 else c - 87.

(** ** class TruthlinkedClient (client.ts) *)

(** [TruthlinkedError(message, statusCode)], or a fault of the runtime. *)
Inductive ClientFault : Type :=
| TruthlinkedError (message : jsstring) (statusCode : option Z)
| RuntimeFault (e : JsError).

Inductive client_outcome (A : Type) : Type :=
| COk (a : A)
| CThrow (f : ClientFault).
Arguments COk {A} a.
Arguments CThrow {A} f.

Definition lift {A : Type} (o : outcome A) : client_outcome A :=
  match o with
  | Ret a => COk a
  | Throw e => CThrow (RuntimeFault e)
  end.

Definition cbind {A B : Type} (o : client_outcome A) (k : A -> client_outcome B)
  : client_outcome B :=
  match o with
  | COk a => k a
  | CThrow f => CThrow f
  end.

(** [s.startsWith(prefix)] *)
Fixpoint startsWith (prefix s : jsstring) : bool :=
  match prefix, s with
  | [], _ => true
  | p :: prefix', c :: s' => (p =? c) && startsWith prefix' s'
  | _ :: _, [] => false
  end.

(** The headers of a request: an object with one value per name, in
    insertion order. *)
Definition Headers := list (jsstring * jsstring).

Fixpoint jsstring_eqb (a b : jsstring) : bool :=
  match a, b with
  | [], [] => true
  | x :: a', y :: b' => (x =? y) && jsstring_eqb a' b'
  | _, _ => false
  end.

(** [headers[name]] *)
Fixpoint get_header (name : jsstring) (h : Headers) : option jsstring :=
  match h with
  | [] => None
  | (n, v) :: rest => if jsstring_eqb n name then Some v else get_header name rest
  end.

(** [headers[name] = value] *)
Fixpoint set_header (name value : jsstring) (h : Headers) : Headers :=
  match h with
  | [] => [(name, value)]
  | (n, v) :: rest =>
      if jsstring_eqb n name then (n, value) :: rest
      else (n, v) :: set_header name value rest
  end.

(** An optional property of the object passed to the constructor: absent,
    or present with a value, which may be [undefined] ([None]). *)
Inductive optional (A : Type) : Type :=
| Absent
| Present (v : option A).
Arguments Absent {A}.
Arguments Present {A} v.

Module TruthlinkedClient.

(** The [TruthlinkedConfig] object a caller passes. *)
Record ConfigArgument : Type := mkArgument {
  arg_baseUrl : jsstring;
  arg_licenseKey : jsstring;
  arg_timeout : optional Z;
  arg_signRequests : optional bool
}.

(** [this.config]: after the spread every property is present; [None] is
    the value [undefined]. *)
Record TruthlinkedConfig : Type := mkConfig {
  baseUrl : jsstring;
  licenseKey : jsstring;
  timeout : option Z;
  signRequests : option bool
}.

(** The part of a request configuration the interceptor reads and writes. *)
Record Request : Type := mkRequest {
  method : option jsstring;
  url : option jsstring;
  data : JsValue;
  headers : Headers
}.

Record t : Type := mk {
  config : TruthlinkedConfig;
  key : SecureLicenseKey.t;
  signer : option RequestSigner.t
}.

(** [{ timeout: 30000, signRequests: true, ...config }]: a property of
    [config] that is present replaces the default, also when its value is
    [undefined]. *)
Definition with_defaults (c : ConfigArgument) : TruthlinkedConfig :=
  mkConfig (arg_baseUrl c) (arg_licenseKey c)
    (match arg_timeout c with Absent => Some 30000 | Present v => v end)
    (match arg_signRequests c with Absent => Some true | Present v => v end).

Definition constructor (c : ConfigArgument) : client_outcome t :=
  if negb (startsWith (js "https://") (arg_baseUrl c))
  then CThrow (TruthlinkedError (js "Base URL must use HTTPS") (Some 400))
  else
    let config := with_defaults c in
    cbind (lift (SecureLicenseKey.constructor (licenseKey config))) (fun k =>
    cbind (match signRequests config with
           | Some true =>
               cbind (lift (RequestSigner.constructor (licenseKey config)))
                     (fun s => COk (Some s))
           | _ => COk None
           end) (fun s =>
    COk (mk config k s))).

(** A text that may be [undefined], as a condition and as a receiver. *)
Definition text_or_empty (o : option jsstring) : jsstring :=
  match o with Some s => s | None => [] end.

(** The request interceptor installed by the constructor. *)
Definition request_interceptor (now : Z) (self : t) (r : Request)
  : outcome Request :=
  signed <- interceptor_sign now (signer self)
              (text_or_empty (method r)) (text_or_empty (url r)) (data r) ;;
  let h := match signed with
           | Some sg =>
               set_header (js "X-Signature") (RequestSigner.signature sg)
                 (set_header (js "X-Timestamp") (RequestSigner.timestamp sg)
                    (headers r))
           | None => headers r
           end in
  Ret (mkRequest (method r) (url r) (data r)
         (set_header (js "X-License-Key") (SecureLicenseKey.asString (key self)) h)).

Definition destroy (self : t) : outcome t :=
  k <- SecureLicenseKey.destroy (key self) ;;
  s <- match signer self with
       | Some s => d <- RequestSigner.destroy s ;; Ret (Some d)
       | None => Ret None
       end ;;
  Ret (mk (config self) k s).

End TruthlinkedClient.

(** ** Auxiliary predicates of the proofs *)

(** The integers [start .. start + n - 1], counted in [Z]. *)
Fixpoint Z_range (n : nat) (start : Z) : list Z :=
  match n with
  | O => []
  | S n' => start :: Z_range n' (start + 1)
  end.

(** A code unit that is no surrogate, and the reading back of its UTF-8
    bytes: the number of bytes announced by the first one, and the value. *)
Definition no_surrogate (c : Z) : bool :=
  ((0 <=? c) && (c <? 0xD800)) || ((0xE000 <=? c) && (c <? 0x10000)).

Definition lead_length (b : Z) : nat :=
  if b <? 0x80 then 1 else if b <? 0xE0 then 2 else 3.

Definition decode_scalar (bs : Buffer) : Z :=
  match bs with
  | [a] => a
  | [a; b] => Z.lor (Z.shiftl (Z.land a 0x1F) 6) (Z.land b 0x3F)
  | [a; b; c] =>
      Z.lor (Z.lor (Z.shiftl (Z.land a 0x0F) 12) (Z.shiftl (Z.land b 0x3F) 6))
            (Z.land c 0x3F)
  | _ => 0
  end.

(** A string without unpaired surrogate: every high surrogate is followed
    by a low one, no low surrogate stands alone, and every other unit is a
    code unit outside the surrogate range. *)
Fixpoint well_formed (s : jsstring) : bool :=
  match s with
  | [] => true
  | c :: rest =>
      if is_high_surrogate c then
        match rest with
        | d :: rest' => is_low_surrogate d && well_formed rest'
        | [] => false
        end
      else no_surrogate c && well_formed rest
  end.

(** A Unicode scalar value, its UTF-16 code units, and the reading back
    of its UTF-8 bytes. *)
Definition scalar (cp : Z) : bool :=
  no_surrogate cp || ((0x10000 <=? cp) && (cp <? 0x110000)).

Definition units_of_scalar (cp : Z) : jsstring :=
  if cp <? 0x10000 then [cp]
  else [0xD800 + (cp - 0x10000) / 0x400; 0xDC00 + (cp - 0x10000) mod 0x400].

Definition lead_length4 (b : Z) : nat :=
  if b <? 0x80 then 1 else if b <? 0xE0 then 2 else if b <? 0xF0 then 3 else 4.

Definition decode_scalar4 (bs : Buffer) : Z :=
  match bs with
  | [a; b; c; d] =>
      Z.lor (Z.lor (Z.lor (Z.shiftl (Z.land a 0x07) 18)
                          (Z.shiftl (Z.land b 0x3F) 12))
                   (Z.shiftl (Z.land c 0x3F) 6))
            (Z.land d 0x3F)
  | _ => decode_scalar bs
  end.

(** A text without the newline character. *)
Definition no_newline (s : jsstring) : Prop := Forall (fun c => c <> 10) s.

(** A byte of a [Buffer]. *)
Definition byte_ok (b : Z) : Prop := 0 <= b < 256.

(** The integers [0 .. n-1], for proofs by enumeration. *)
Definition below (n : nat) : list Z := map Z.of_nat (seq 0 n).

Definition sextet_ok (n : Z) : bool := (0 <=? n) && (n <? 64).

(** * Properties *)

(** Split a conjunction of closed facts without touching the facts. *)
Ltac split_conj := repeat match goal with |- _ /\ _ => split end.

(** ** The tests of crypto.test.ts, evaluated *)

Example test_constantTimeEqual :
  constantTimeEqual (js "test") (js "test") = Ret true
  /\ constantTimeEqual (js "test") (js "fail") = Ret false
  /\ constantTimeEqual (js "test") (js "testing") = Ret false.
Proof. split_conj; vm_compute; reflexivity. Qed.

Example test_redacted :
  (k <- SecureLicenseKey.constructor (js "tl_free_secret123456789") ;;
   Ret (SecureLicenseKey.redacted k)) = Ret (js "tl_...789")
  /\ (k <- SecureLicenseKey.constructor (js "short") ;;
      Ret (SecureLicenseKey.redacted k)) = Ret (js "***").
Proof. split; vm_compute; reflexivity. Qed.

Example test_zeroizes_on_destroy :
  (k <- SecureLicenseKey.constructor (js "test_key") ;;
   k' <- SecureLicenseKey.destroy k ;;
   Ret (SecureLicenseKey.asString k')) = Ret (repeat 0 8%nat).
Proof. vm_compute. reflexivity. Qed.

Example test_verifies_signatures :
  (s <- RequestSigner.constructor (js "test_key") ;;
   r <- RequestSigner.sign 1700000000123 s (js "GET") (js "/test") JNull ;;
   RequestSigner.verify s (js "GET") (js "/test") []
     (RequestSigner.signature r) (RequestSigner.timestamp r)) = Ret true.
Proof. vm_compute. reflexivity. Qed.

Example sha256_test_vector :
  sha256 (js "test")
  = js "9f86d081884c7d659a2feaa0c55ad015a3bf4f1b2b0b822cd15d6c15b0f00a08".
Proof. vm_compute. reflexivity. Qed.

Example hmac_rfc4231_case2 :
  hex_encode (hmac_sha256 (utf8_encode (js "Jefe"))
                          (utf8_encode (js "what do ya want for nothing?")))
  = js "5bdcc146bf60754e6a042426089575c75a003f089d2739839dec58b964ec3843".
Proof. vm_compute. reflexivity. Qed.

(** ** The monad *)

Lemma bind_ret {A B : Type} (a : A) (k : A -> outcome B) :
  (x <- Ret a ;; k x) = k a.
Proof. reflexivity. Qed.

Lemma bind_inv {A B : Type} (o : outcome A) (k : A -> outcome B) (b : B) :
  (x <- o ;; k x) = Ret b -> exists a, o = Ret a /\ k a = Ret b.
Proof.
  destruct o as [a | e]; simpl; intros H.
  - exists a. split; [reflexivity | exact H].
  - discriminate H.
Qed.

(** ** [timingSafeEqual] decides equality of equally long buffers *)

Section TimingSafeEqual.

Let xor_pair (p : Z * Z) : Z := Z.lxor (fst p) (snd p).

Lemma fold_lor_zero (l : list Z) :
  forall acc, fold_left Z.lor l acc = 0 <-> acc = 0 /\ Forall (fun x => x = 0) l.
Proof.
  induction l as [| x l IH]; intros acc; simpl.
  - split; [intros H; split; [exact H | constructor] | intros [H _]; exact H].
  - rewrite IH, Z.lor_eq_0_iff. split.
    + intros [[Ha Hx] Hl]. split; [exact Ha | constructor; assumption].
    + intros [Ha Hl]. inversion Hl; subst. repeat split; assumption.
Qed.

Lemma xor_all_zero (a : Buffer) :
  forall b, length a = length b ->
  (Forall (fun x => x = 0) (map xor_pair (combine a b)) <-> a = b).
Proof.
  induction a as [| x a IH]; intros [| y b] Hlen; simpl in *; try discriminate.
  - split; [reflexivity | constructor].
  - injection Hlen as Hlen. specialize (IH b Hlen). split.
    + intros H. inversion H as [| ? ? Hxy Hrest]; subst.
      apply Z.lxor_eq in Hxy. simpl in Hxy. apply IH in Hrest.
      rewrite Hxy, Hrest. reflexivity.
    + intros H. injection H as -> ->. constructor.
      * apply Z.lxor_nilpotent.
      * apply IH. reflexivity.
Qed.

Lemma xor_combine_comm (a : Buffer) :
  forall b, map xor_pair (combine a b) = map xor_pair (combine b a).
Proof.
  induction a as [| x a IH]; intros [| y b]; simpl; try reflexivity.
  unfold xor_pair at 1 3. simpl. rewrite Z.lxor_comm, IH. reflexivity.
Qed.

Lemma timingSafeEqual_same_length (a b : Buffer) :
  length a = length b ->
  exists r, timingSafeEqual a b = Ret r /\ (r = true <-> a = b).
Proof.
  intros Hlen. unfold timingSafeEqual.
  rewrite (proj2 (Nat.eqb_eq _ _) Hlen).
  eexists. split; [reflexivity |].
  rewrite Z.eqb_eq, fold_lor_zero.
  fold xor_pair. rewrite (xor_all_zero a b Hlen). tauto.
Qed.

Lemma timingSafeEqual_length_mismatch (a b : Buffer) :
  length a <> length b -> timingSafeEqual a b = Throw RangeError.
Proof.
  intros Hlen. unfold timingSafeEqual.
  rewrite (proj2 (Nat.eqb_neq _ _) Hlen). reflexivity.
Qed.

Lemma timingSafeEqual_refl (a : Buffer) : timingSafeEqual a a = Ret true.
Proof.
  destruct (timingSafeEqual_same_length a a eq_refl) as [r [Hr Hiff]].
  rewrite Hr. f_equal. apply Hiff. reflexivity.
Qed.

Lemma timingSafeEqual_sym (a b : Buffer) :
  timingSafeEqual a b = timingSafeEqual b a.
Proof.
  unfold timingSafeEqual. rewrite (Nat.eqb_sym (length b)).
  fold xor_pair. rewrite (xor_combine_comm a b). reflexivity.
Qed.

Lemma timingSafeEqual_differ (a b : Buffer) :
  length a = length b -> a <> b -> timingSafeEqual a b = Ret false.
Proof.
  intros Hlen Hne.
  destruct (timingSafeEqual_same_length a b Hlen) as [r [Hr Hiff]].
  rewrite Hr. destruct r; [| reflexivity].
  exfalso. apply Hne, Hiff. reflexivity.
Qed.

End TimingSafeEqual.

(** ** Digests are 32 bytes *)

Lemma be_bytes_ok (n : nat) (x : Z) : Forall byte_ok (SHA256.be_bytes n x).
Proof.
  unfold SHA256.be_bytes. apply Forall_forall. intros b Hb.
  apply in_map_iff in Hb. destruct Hb as [i [<- _]].
  unfold byte_ok. change 0xFF with (Z.ones 8).
  rewrite Z.land_ones by lia. apply Z.mod_pos_bound. lia.
Qed.

Lemma digest_length (msg : Buffer) : length (SHA256.digest msg) = 32%nat.
Proof. reflexivity. Qed.

Lemma digest_bytes (msg : Buffer) : Forall byte_ok (SHA256.digest msg).
Proof.
  unfold SHA256.digest, SHA256.state_bytes.
  repeat (apply Forall_app; split); apply be_bytes_ok.
Qed.

Lemma hmac_length (key msg : Buffer) : length (hmac_sha256 key msg) = 32%nat.
Proof. apply digest_length. Qed.

Lemma hmac_bytes (key msg : Buffer) : Forall byte_ok (hmac_sha256 key msg).
Proof. apply digest_bytes. Qed.

(** ** Base64: decoding undoes encoding *)

Section Base64.

(** The four sextets of a group of three bytes. *)
Let s1 (a : Z) : Z := Z.shiftr a 2.
Let s2 (a b : Z) : Z := Z.lor (Z.shiftl (Z.land a 3) 4) (Z.shiftr b 4).
Let s3 (b c : Z) : Z := Z.lor (Z.shiftl (Z.land b 15) 2) (Z.shiftr c 6).
Let s4 (c : Z) : Z := Z.land c 63.

Lemma below_all (n : nat) (P : Z -> bool) :
  forallb P (below n) = true -> forall a, 0 <= a < Z.of_nat n -> P a = true.
Proof.
  intros H a Ha. rewrite forallb_forall in H. apply H.
  unfold below. apply in_map_iff. exists (Z.to_nat a). split.
  - lia.
  - apply in_seq. lia.
Qed.

Lemma below_all2 (n m : nat) (P : Z -> Z -> bool) :
  forallb (fun a => forallb (P a) (below m)) (below n) = true ->
  forall a b, 0 <= a < Z.of_nat n -> 0 <= b < Z.of_nat m -> P a b = true.
Proof.
  intros H a b Ha Hb.
  apply (below_all m (P a)); [| exact Hb].
  apply (below_all n (fun a => forallb (P a) (below m))); assumption.
Qed.

Lemma sextet_ok_range (n : Z) : sextet_ok n = true -> 0 <= n < 64.
Proof. unfold sextet_ok. lia. Qed.

Lemma sextets_b64_char (n : Z) (rest : jsstring) :
  0 <= n < 64 -> sextets (b64_char n :: rest) = n :: sextets rest.
Proof.
  intros Hn.
  assert (H : (negb (low_byte (b64_char n) =? 61)
               && match unbase64 (b64_char n) with
                  | Some m => m =? n
                  | None => false
                  end) = true).
  { revert n Hn. apply (below_all 64). vm_compute. reflexivity. }
  apply andb_true_iff in H. destruct H as [H61 Hun].
  cbn [sextets]. apply negb_true_iff in H61. rewrite H61.
  destruct (unbase64 (b64_char n)) as [m |]; [| discriminate].
  apply Z.eqb_eq in Hun. subst m. reflexivity.
Qed.

Lemma group_head (a b : Z) :
  byte_ok a -> byte_ok b ->
  0 <= s1 a < 64 /\ 0 <= s2 a b < 64
  /\ Z.lor (Z.shiftl (s1 a) 2) (Z.shiftr (s2 a b) 4) = a
  /\ Z.land (s2 a b) 15 = Z.shiftr b 4.
Proof.
  intros Ha Hb.
  assert (H : (sextet_ok (s1 a) && sextet_ok (s2 a b)
               && (Z.lor (Z.shiftl (s1 a) 2) (Z.shiftr (s2 a b) 4) =? a)
               && (Z.land (s2 a b) 15 =? Z.shiftr b 4)) = true).
  { revert a b Ha Hb. apply (below_all2 256 256). vm_compute. reflexivity. }
  repeat (apply andb_true_iff in H; destruct H as [H ?]).
  repeat split; try (apply sextet_ok_range; assumption); lia.
Qed.

Lemma group_tail (b c : Z) :
  byte_ok b -> byte_ok c ->
  0 <= s3 b c < 64 /\ 0 <= s4 c < 64
  /\ Z.shiftr (s3 b c) 2 = Z.land b 15
  /\ Z.lor (Z.shiftl (Z.land (s3 b c) 3) 6) (s4 c) = c
  /\ Z.lor (Z.shiftl (Z.shiftr b 4) 4) (Z.land b 15) = b.
Proof.
  intros Hb Hc.
  assert (H : (sextet_ok (s3 b c) && sextet_ok (s4 c)
               && (Z.shiftr (s3 b c) 2 =? Z.land b 15)
               && (Z.lor (Z.shiftl (Z.land (s3 b c) 3) 6) (s4 c) =? c)
               && (Z.lor (Z.shiftl (Z.shiftr b 4) 4) (Z.land b 15) =? b)) = true).
  { revert b c Hb Hc. apply (below_all2 256 256). vm_compute. reflexivity. }
  repeat (apply andb_true_iff in H; destruct H as [H ?]).
  repeat split; try (apply sextet_ok_range; assumption); lia.
Qed.

Lemma list_ind3 {A : Type} (P : list A -> Prop) :
  P [] -> (forall a, P [a]) -> (forall a b, P [a; b]) ->
  (forall a b c l, P l -> P (a :: b :: c :: l)) ->
  forall l, P l.
Proof.
  intros H0 H1 H2 H3. fix IH 1.
  intros [| a [| b [| c l]]]; [exact H0 | apply H1 | apply H2 |].
  apply H3, IH.
Qed.

Lemma byte_ok_zero : byte_ok 0.
Proof. unfold byte_ok. lia. Qed.

Theorem base64_roundtrip (bs : Buffer) :
  Forall byte_ok bs -> base64_decode (base64_encode bs) = bs.
Proof.
  unfold base64_decode. induction bs as [| a | a b | a b c rest IH] using list_ind3;
    intros Hok.
  - reflexivity.
  - inversion Hok as [| ? ? Ha _]; subst.
    destruct (group_head a 0 Ha byte_ok_zero) as (R1 & R2 & E1 & _).
    unfold s1, s2 in *. rewrite Z.shiftr_0_l, Z.lor_0_r in *.
    cbn [base64_encode]. rewrite !sextets_b64_char by assumption.
    cbn [sextets]. change (low_byte 61 =? 61) with true. cbn iota.
    cbn [bytes_of_sextets]. rewrite E1. reflexivity.
  - inversion Hok as [| ? ? Ha Hok']; subst.
    inversion Hok' as [| ? ? Hb _]; subst.
    destruct (group_head a b Ha Hb) as (R1 & R2 & E1 & E2).
    destruct (group_tail b 0 Hb byte_ok_zero) as (R3 & _ & E3 & _ & E5).
    unfold s1, s2, s3 in *. rewrite Z.shiftr_0_l, Z.lor_0_r in *.
    cbn [base64_encode]. rewrite !sextets_b64_char by assumption.
    cbn [sextets]. change (low_byte 61 =? 61) with true. cbn iota.
    cbn [bytes_of_sextets]. rewrite E1, E2, E3, E5.
    reflexivity.
  - inversion Hok as [| ? ? Ha Hok']; subst.
    inversion Hok' as [| ? ? Hb Hok'']; subst.
    inversion Hok'' as [| ? ? Hc Hrest]; subst.
    destruct (group_head a b Ha Hb) as (R1 & R2 & E1 & E2).
    destruct (group_tail b c Hb Hc) as (R3 & R4 & E3 & E4 & E5).
    unfold s1, s2, s3, s4 in *.
    cbn [base64_encode]. rewrite !sextets_b64_char by assumption.
    cbn [bytes_of_sextets]. rewrite E1, E2, E3, E4, E5, (IH Hrest).
    reflexivity.
Qed.

Corollary base64_encode_injective (xs ys : Buffer) :
  Forall byte_ok xs -> Forall byte_ok ys ->
  base64_encode xs = base64_encode ys -> xs = ys.
Proof.
  intros Hx Hy H.
  rewrite <- (base64_roundtrip xs Hx), <- (base64_roundtrip ys Hy), H.
  reflexivity.
Qed.

End Base64.

(** ** [constantTimeEqual] *)

Lemma constantTimeEqual_byte_length_mismatch (a b : jsstring) :
  length a = length b ->
  length (utf8_encode a) <> length (utf8_encode b) ->
  constantTimeEqual a b = Throw RangeError.
Proof.
  intros Hlen Hbytes. unfold constantTimeEqual.
  rewrite (proj2 (Nat.eqb_eq _ _) Hlen). simpl.
  apply timingSafeEqual_length_mismatch, Hbytes.
Qed.

(** C8: [constantTimeEqual] is reflexive, it is symmetric (the two orders
    of the arguments have the same outcome), and it returns [false]
    whenever the two strings differ in [length], whatever they contain. *)
Theorem constantTimeEqual_refl_sym_length (a b : jsstring) :
  constantTimeEqual a a = Ret true
  /\ constantTimeEqual a b = constantTimeEqual b a
  /\ (length a <> length b -> constantTimeEqual a b = Ret false).
Proof.
  unfold constantTimeEqual. repeat split.
  - rewrite Nat.eqb_refl. simpl. apply timingSafeEqual_refl.
  - rewrite (Nat.eqb_sym (length b)), timingSafeEqual_sym. reflexivity.
  - intros Hlen. rewrite (proj2 (Nat.eqb_neq _ _) Hlen). reflexivity.
Qed.

Lemma constantTimeEqual_refl_sym_length_witness :
  length (js "test") <> length (js "testing")
  /\ constantTimeEqual (js "test") (js "testing") = Ret false.
Proof.
  assert (H : length (js "test") <> length (js "testing")).
  { simpl. lia. }
  split; [exact H |].
  exact (proj2 (proj2 (constantTimeEqual_refl_sym_length
                         (js "test") (js "testing"))) H).
Defined.

(** C10: [constantTimeEqual] is not total.  Whenever two strings have the
    same [length] but UTF-8 encodings of different byte lengths the
    comparison throws a [RangeError]; such pairs exist, for instance "a"
    and "e acute" (U+00E9), one code unit each, one and two bytes. *)
Theorem constantTimeEqual_not_total :
  (forall a b : jsstring,
      length a = length b ->
      length (utf8_encode a) <> length (utf8_encode b) ->
      constantTimeEqual a b = Throw RangeError)
  /\ (exists a b : jsstring,
        wf_string a /\ wf_string b /\ a <> b
        /\ length a = length b
        /\ length (utf8_encode a) <> length (utf8_encode b)
        /\ constantTimeEqual a b = Throw RangeError).
Proof.
  split.
  - exact constantTimeEqual_byte_length_mismatch.
  - exists [97], [233]. unfold wf_string, code_unit_ok.
    repeat split; try (repeat constructor; lia); try discriminate.
Qed.

Lemma constantTimeEqual_not_total_witness :
  length [97] = length [233]
  /\ length (utf8_encode [97]) <> length (utf8_encode [233])
  /\ constantTimeEqual [97] [233] = Throw RangeError.
Proof.
  assert (H1 : length [97] = length [233]) by reflexivity.
  assert (H2 : length (utf8_encode [97]) <> length (utf8_encode [233])).
  { simpl. lia. }
  split; [exact H1 | split; [exact H2 |]].
  exact (proj1 constantTimeEqual_not_total [97] [233] H1 H2).
Defined.

(** ** [RequestSigner]: signing and verifying *)

Lemma sign_verify_roundtrip_any
    (now : Z) (self : RequestSigner.t) (method path : jsstring) (body : JsValue) :
  (r <- RequestSigner.sign now self method path body ;;
   RequestSigner.verify self method path (RequestSigner.bodyStr body)
     (RequestSigner.signature r) (RequestSigner.timestamp r)) = Ret true.
Proof.
  unfold RequestSigner.sign, RequestSigner.verify.
  rewrite bind_ret. cbn [RequestSigner.signature RequestSigner.timestamp].
  apply timingSafeEqual_refl.
Qed.

(** C1: whatever the clock, the signer, the method, the path and the body,
    [verify] on the same signer with the same method and path, the body
    text [sign] used, and the signature and timestamp [sign] returned,
    returns [true]. *)
Theorem sign_verify_roundtrip
    (now : Z) (self : RequestSigner.t) (method path : jsstring) (body : JsValue) :
  (r <- RequestSigner.sign now self method path body ;;
   RequestSigner.verify self method path (RequestSigner.bodyStr body)
     (RequestSigner.signature r) (RequestSigner.timestamp r)) = Ret true.
Proof. apply sign_verify_roundtrip_any. Qed.

(** What [verify] compares the supplied signature with: the 32 bytes of
    the keyed hash. *)
Lemma expected_decodes (self : RequestSigner.t) (msg : jsstring) :
  base64_decode (RequestSigner.mac self msg)
  = hmac_sha256 (RequestSigner.signingKey self) (utf8_encode msg).
Proof. apply base64_roundtrip, hmac_bytes. Qed.

Lemma verify_wrong_length
    (self : RequestSigner.t) (method path body signature timestamp : jsstring) :
  length (base64_decode signature) <> 32%nat ->
  RequestSigner.verify self method path body signature timestamp
  = Throw RangeError.
Proof.
  intros Hlen. unfold RequestSigner.verify.
  apply timingSafeEqual_length_mismatch.
  rewrite expected_decodes, hmac_length. exact Hlen.
Qed.

Lemma verify_right_length
    (self : RequestSigner.t) (method path body signature timestamp : jsstring) :
  length (base64_decode signature) = 32%nat ->
  exists r,
    RequestSigner.verify self method path body signature timestamp = Ret r
    /\ (r = true <->
        base64_decode signature
        = hmac_sha256 (RequestSigner.signingKey self)
            (utf8_encode (RequestSigner.message method path timestamp body))).
Proof.
  intros Hlen. unfold RequestSigner.verify. rewrite expected_decodes.
  apply timingSafeEqual_same_length. rewrite hmac_length. exact Hlen.
Qed.

(** The end-to-end properties of the specification, on the signer of the
    credential "test_key" at clock second 1700000000. *)
Example end_to_end_test_key :
  (s <- RequestSigner.constructor (js "test_key") ;;
   r <- RequestSigner.sign 1700000000123 s (js "GET") (js "/test") JNull ;;
   Ret (RequestSigner.timestamp r, RequestSigner.signature r))
  = Ret (js "1700000000", js "Grfj/8Px+lFO1c3VWTEY4vSfMSpyqUKv84zMGN4jquc=")
  /\ (s <- RequestSigner.constructor (js "test_key") ;;
      r <- RequestSigner.sign 1700000000123 s (js "POST") (js "/test") JNull ;;
      Ret (RequestSigner.signature r))
     = Ret (js "CNe/qNj3lUYneP331mbZ1ocGc9Zj7cczIQDcw7X1dBU=")
  /\ (s <- RequestSigner.constructor (js "test_key") ;;
      RequestSigner.verify s (js "GET") (js "/test") []
        (js "Hrfj/8Px+lFO1c3VWTEY4vSfMSpyqUKv84zMGN4jquc=") (js "1700000000"))
     = Ret false
  /\ (s <- RequestSigner.constructor (js "other_key") ;;
      RequestSigner.verify s (js "GET") (js "/test") []
        (js "Grfj/8Px+lFO1c3VWTEY4vSfMSpyqUKv84zMGN4jquc=") (js "1700000000"))
     = Ret false.
Proof. split_conj; vm_compute; reflexivity. Qed.

(** The decoder reads a code unit above U+00FF by its low byte: the valid
    signature with U+0147 in place of its first letter G is accepted, and
    with U+0141, read as the letter A, put in front it decodes to 33 bytes
    and [verify] throws. *)
Example verify_reads_low_bytes :
  (s <- RequestSigner.constructor (js "test_key") ;;
   RequestSigner.verify s (js "GET") (js "/test") []
     (0x147 :: js "rfj/8Px+lFO1c3VWTEY4vSfMSpyqUKv84zMGN4jquc=")
     (js "1700000000"))
  = Ret true
  /\ (s <- RequestSigner.constructor (js "test_key") ;;
      RequestSigner.verify s (js "GET") (js "/test") []
        (0x141 :: js "Grfj/8Px+lFO1c3VWTEY4vSfMSpyqUKv84zMGN4jquc=")
        (js "1700000000"))
     = Throw RangeError.
Proof. split_conj; vm_compute; reflexivity. Qed.

(** C2: the claim asks [verify] to return [false], and never to throw, on
    every malformed signature.  The code throws: on the signer of
    "test_key", an empty signature, a text that is not base64 and a valid
    signature cut short all decode to fewer than 32 bytes, and
    [timingSafeEqual] raises a [RangeError]. *)
Theorem verify_throws_on_malformed_signature :
  (s <- RequestSigner.constructor (js "test_key") ;;
   RequestSigner.verify s (js "GET") (js "/test") [] [] (js "1700000000"))
  = Throw RangeError
  /\ (s <- RequestSigner.constructor (js "test_key") ;;
      RequestSigner.verify s (js "GET") (js "/test") []
        (js "not-base64!") (js "1700000000"))
     = Throw RangeError
  /\ (s <- RequestSigner.constructor (js "test_key") ;;
      RequestSigner.verify s (js "GET") (js "/test") []
        (js "Grfj/8Px+lFO1c3VWTEY4vSfMSpyqUKv84zMGN4jq") (js "1700000000"))
     = Throw RangeError.
Proof. split_conj; vm_compute; reflexivity. Qed.

(** ** The canonical message *)

Lemma sign_unfold
    (now : Z) (self : RequestSigner.t) (method path : jsstring) (body : JsValue) :
  RequestSigner.sign now self method path body
  = Ret (RequestSigner.mkSigned
           (decimal (now / 1000))
           (base64_encode
              (hmac_sha256 (RequestSigner.signingKey self)
                 (utf8_encode
                    (method ++ [10] ++ path ++ [10] ++ decimal (now / 1000)
                       ++ [10]
                       ++ (if ToBoolean body
                           then template_text (JSON_stringify body)
                           else [])))))).
Proof. reflexivity. Qed.

(** C3, as amended: the message [sign] feeds to the keyed hash is the
    method exactly as it was passed, the path, the decimal clock second and
    the body text or the empty text, joined by newlines; [sign] converts no
    letter case.  The request interceptor upper-cases the method before it
    calls [sign], so what it signs is the message the specification
    describes. *)
Theorem sign_message_format
    (now : Z) (self : RequestSigner.t) (method path : jsstring) (body : JsValue) :
  RequestSigner.sign now self method path body
  = Ret (RequestSigner.mkSigned
           (decimal (now / 1000))
           (base64_encode
              (hmac_sha256 (RequestSigner.signingKey self)
                 (utf8_encode
                    (method ++ [10] ++ path ++ [10] ++ decimal (now / 1000)
                       ++ [10]
                       ++ (if ToBoolean body
                           then template_text (JSON_stringify body)
                           else []))))))
  /\ (method <> [] -> path <> [] ->
      interceptor_sign now (Some self) method path body
      = Ret (Some (RequestSigner.mkSigned
                     (decimal (now / 1000))
                     (base64_encode
                        (hmac_sha256 (RequestSigner.signingKey self)
                           (utf8_encode
                              (spec_canonical_message method path
                                 (decimal (now / 1000))
                                 (RequestSigner.bodyStr body)))))))).
Proof.
  split; [apply sign_unfold |].
  intros Hm Hp. unfold interceptor_sign.
  destruct method as [| m method]; [contradiction |].
  destruct path as [| u path]; [contradiction |].
  reflexivity.
Qed.

Lemma sign_message_format_witness :
  js "get" <> [] /\ js "/test" <> []
  /\ interceptor_sign 1700000000123
       (Some (RequestSigner.mk (repeat 7 32%nat))) (js "get") (js "/test") JNull
     = Ret (Some (RequestSigner.mkSigned
                    (decimal (1700000000123 / 1000))
                    (base64_encode
                       (hmac_sha256 (repeat 7 32%nat)
                          (utf8_encode
                             (spec_canonical_message (js "get") (js "/test")
                                (decimal (1700000000123 / 1000))
                                (RequestSigner.bodyStr JNull))))))).
Proof.
  assert (Hm : js "get" <> []) by discriminate.
  assert (Hp : js "/test" <> []) by discriminate.
  split; [exact Hm | split; [exact Hp |]].
  exact (proj2 (sign_message_format 1700000000123
                  (RequestSigner.mk (repeat 7 32%nat))
                  (js "get") (js "/test") JNull) Hm Hp).
Defined.

(** C3, the claim as stated fails: given the lower-case method "get",
    [sign] hashes the message that starts with "get", which is not the
    specification's message, and the signature differs from the one over
    the upper-cased message. *)
Lemma sign_keeps_method_case :
  RequestSigner.message (js "get") (js "/test") (js "1700000000") []
  <> spec_canonical_message (js "get") (js "/test") (js "1700000000") []
  /\ (s <- RequestSigner.constructor (js "test_key") ;;
      r <- RequestSigner.sign 1700000000123 s (js "get") (js "/test") JUndefined ;;
      Ret (RequestSigner.signature r))
     = Ret (js "SSVnty2OETtE+iKs9d5ADDcAXa5qlV5Qo8FlT+bg70A=")
  /\ (s <- RequestSigner.constructor (js "test_key") ;;
      Ret (RequestSigner.mac s
             (spec_canonical_message (js "get") (js "/test") (js "1700000000") [])))
     = Ret (js "Grfj/8Px+lFO1c3VWTEY4vSfMSpyqUKv84zMGN4jquc=").
Proof.
  split; [| split].
  - vm_compute. intros H. discriminate H.
  - vm_compute. reflexivity.
  - vm_compute. reflexivity.
Qed.

(** ** Decimal text *)

(** The decimal text of an integer. *)
Lemma js_injective (a b : string) : js a = js b -> a = b.
Proof.
  unfold js. intros H.
  rewrite <- (string_of_list_ascii_of_string a),
          <- (string_of_list_ascii_of_string b).
  f_equal. revert H.
  generalize (list_ascii_of_string a) (list_ascii_of_string b).
  induction l as [| x l IH]; intros [| y l'] H; simpl in H; try discriminate.
  - reflexivity.
  - injection H as Hxy Hl. f_equal; [| apply IH, Hl].
    apply N2Z.inj in Hxy.
    rewrite <- (ascii_N_embedding x), <- (ascii_N_embedding y), Hxy.
    reflexivity.
Qed.

Lemma to_int_not_nil (z : Z) :
  Z.to_int z <> Decimal.Pos Decimal.Nil /\ Z.to_int z <> Decimal.Neg Decimal.Nil.
Proof.
  destruct z as [| p | p]; simpl; split; try discriminate;
    intros H; injection H as H; exact (Unsigned.to_uint_nonnil p H).
Qed.

Lemma decimal_injective (a b : Z) : decimal a = decimal b -> a = b.
Proof.
  unfold decimal. intros H. apply js_injective in H.
  apply (f_equal NilZero.int_of_string) in H.
  destruct (to_int_not_nil a) as [Ha1 Ha2], (to_int_not_nil b) as [Hb1 Hb2].
  rewrite !NilZero.isi in H by assumption.
  injection H as H. rewrite <- (DecimalZ.of_to a), <- (DecimalZ.of_to b), H.
  reflexivity.
Qed.

Lemma uint_text_digits (d : Decimal.uint) :
  Forall (fun c => 48 <= c <= 57) (js (NilEmpty.string_of_uint d)).
Proof.
  induction d; cbn; constructor; try lia; assumption.
Qed.


Lemma decimal_ascii (z : Z) : Forall (fun c => 0 <= c < 128) (decimal z).
Proof.
  assert (Hu : forall d,
             Forall (fun c => 0 <= c < 128) (js (NilZero.string_of_uint d))).
  { intros d.
    assert (H : Forall (fun c => 48 <= c <= 57) (js (NilZero.string_of_uint d))).
    { destruct d; try apply uint_text_digits. cbn. constructor; [lia | constructor]. }
    eapply Forall_impl; [| exact H]. cbn. intros c Hc. lia. }
  unfold decimal. destruct (Z.to_int z) as [d | d]; cbn [NilZero.string_of_int].
  - apply Hu.
  - change (js (String "-" (NilZero.string_of_uint d)))
      with (45 :: js (NilZero.string_of_uint d)).
    constructor; [lia | apply Hu].
Qed.

(** ** Enumeration over a range of integers *)

Lemma Z_range_all (P : Z -> bool) (n : nat) :
  forall start,
    forallb P (Z_range n start) = true ->
    forall a, start <= a < start + Z.of_nat n -> P a = true.
Proof.
  induction n as [| n IH]; intros start H a Ha; [lia |].
  cbn [Z_range forallb] in H. apply andb_true_iff in H. destruct H as [H0 H].
  destruct (Z.eq_dec a start) as [-> | Hne]; [exact H0 |].
  apply (IH (start + 1) H). lia.
Qed.

(** ** The timestamp *)

(** C4, as amended: [sign] takes no timestamp.  The timestamp it returns
    is always the decimal text of the clock's whole second, whatever the
    arguments, and the signature is the keyed hash of the message that
    carries this timestamp; so two calls with the same signer, method, path
    and body return the same timestamp and signature when they are made
    within the same clock second, and only then. *)
Theorem sign_timestamp_from_clock
    (now1 now2 : Z) (self : RequestSigner.t) (method path : jsstring)
    (body : JsValue) :
  RequestSigner.sign now1 self method path body
  = Ret (RequestSigner.mkSigned
           (decimal (now1 / 1000))
           (base64_encode
              (hmac_sha256 (RequestSigner.signingKey self)
                 (utf8_encode
                    (method ++ [10] ++ path ++ [10] ++ decimal (now1 / 1000)
                       ++ [10] ++ RequestSigner.bodyStr body)))))
  /\ (now1 / 1000 = now2 / 1000 ->
      RequestSigner.sign now1 self method path body
      = RequestSigner.sign now2 self method path body)
  /\ (RequestSigner.sign now1 self method path body
      = RequestSigner.sign now2 self method path body ->
      now1 / 1000 = now2 / 1000).
Proof.
  split; [apply sign_unfold | split].
  - intros Hsec. unfold RequestSigner.sign, RequestSigner.clock_seconds.
    rewrite Hsec. reflexivity.
  - intros H. apply decimal_injective.
    apply (f_equal (fun o => match o with
                             | Ret r => RequestSigner.timestamp r
                             | Throw _ => []
                             end)) in H.
    exact H.
Qed.

Lemma sign_timestamp_from_clock_witness :
  1700000000123 / 1000 = 1700000000999 / 1000
  /\ RequestSigner.sign 1700000000123 (RequestSigner.mk (repeat 7 32%nat))
       (js "GET") (js "/test") JNull
     = RequestSigner.sign 1700000000999 (RequestSigner.mk (repeat 7 32%nat))
         (js "GET") (js "/test") JNull
  /\ 1700000000999 / 1000 = 1700000000123 / 1000.
Proof.
  assert (H : 1700000000123 / 1000 = 1700000000999 / 1000) by reflexivity.
  assert (Hsign : RequestSigner.sign 1700000000123
                    (RequestSigner.mk (repeat 7 32%nat))
                    (js "GET") (js "/test") JNull
                  = RequestSigner.sign 1700000000999
                      (RequestSigner.mk (repeat 7 32%nat))
                      (js "GET") (js "/test") JNull).
  { exact (proj1 (proj2 (sign_timestamp_from_clock 1700000000123 1700000000999
                           (RequestSigner.mk (repeat 7 32%nat))
                           (js "GET") (js "/test") JNull)) H). }
  split; [exact H | split; [exact Hsign |]].
  exact (proj2 (proj2 (sign_timestamp_from_clock 1700000000999 1700000000123
                         (RequestSigner.mk (repeat 7 32%nat))
                         (js "GET") (js "/test") JNull)) (eq_sym Hsign)).
Defined.

(** C4, the claim as stated fails.  The only optional argument of [sign]
    is the body: a timestamp passed there (1700000000, while the clock
    shows second 1800000000) is signed as body text and the returned
    timestamp is the clock's.  With identical arguments, two calls one
    second apart return different signatures. *)
Lemma sign_ignores_supplied_timestamp :
  (s <- RequestSigner.constructor (js "test_key") ;;
   r <- RequestSigner.sign 1800000000123 s (js "GET") (js "/test")
          (JNum 1700000000) ;;
   Ret (RequestSigner.timestamp r, RequestSigner.signature r))
  = Ret (js "1800000000", js "YhApmnKUVC+bGu8AEoKb2sIArA/UYyNTuzEkDo8lLdE=")
  /\ js "1800000000" <> decimal 1700000000
  /\ (s <- RequestSigner.constructor (js "test_key") ;;
      r <- RequestSigner.sign 1700000000123 s (js "GET") (js "/test") JUndefined ;;
      Ret (RequestSigner.signature r))
     = Ret (js "Grfj/8Px+lFO1c3VWTEY4vSfMSpyqUKv84zMGN4jquc=")
  /\ (s <- RequestSigner.constructor (js "test_key") ;;
      r <- RequestSigner.sign 1700000001123 s (js "GET") (js "/test") JUndefined ;;
      Ret (RequestSigner.signature r))
     = Ret (js "fopNp81eCzCKg870mQWaVU+qBzDj06guwQfohPoh0ME=").
Proof.
  split; [| split; [| split]].
  - vm_compute. reflexivity.
  - vm_compute. intros H. discriminate H.
  - vm_compute. reflexivity.
  - vm_compute. reflexivity.
Qed.

(** ** UTF-8 of strings without unpaired surrogate *)

Lemma lor_disjoint (a b n : Z) :
  0 <= n -> 0 <= b < 2 ^ n -> a mod 2 ^ n = 0 -> Z.lor a b = a + b.
Proof.
  intros Hn Hb Ha.
  assert (Hland : Z.land a b = 0).
  { apply Z.bits_inj'. intros i Hi. rewrite Z.land_spec, Z.bits_0.
    destruct (Z.lt_ge_cases i n) as [Hlt | Hge].
    - rewrite <- (Z.mod_pow2_bits_low a n i) by lia. rewrite Ha, Z.bits_0.
      reflexivity.
    - rewrite <- (Z.mod_small b (2 ^ n)) by lia.
      rewrite Z.mod_pow2_bits_high by lia. apply andb_false_r. }
  rewrite Z.add_nocarry_lxor, Z.lxor_lor by exact Hland. reflexivity.
Qed.

(** The four bytes of a code point above U+FFFF, taken apart by division. *)
Lemma supplementary_readback (cp : Z) :
  0x10000 <= cp < 0x110000 ->
  lead_length4 (hd 0 (utf8_of_code_point cp)) = length (utf8_of_code_point cp)
  /\ decode_scalar4 (utf8_of_code_point cp) = cp
  /\ (1 <= length (utf8_of_code_point cp))%nat.
Proof.
  intros Hcp. unfold utf8_of_code_point.
  replace (cp <? 0x80) with false by lia.
  replace (cp <? 0x800) with false by lia.
  replace (cp <? 0x10000) with false by lia.
  cbn [hd length decode_scalar4].
  change 0x3F with (Z.ones 6). change 0x07 with (Z.ones 3).
  rewrite !Z.shiftr_div_pow2 by lia. rewrite !Z.land_ones by lia.
  assert (Hx : 0 <= cp / 2 ^ 18 < 8) by (Z.div_mod_to_equations; lia).
  rewrite (lor_disjoint 0xF0 (cp / 2 ^ 18) 4) by (try reflexivity; lia).
  rewrite (lor_disjoint 0x80 ((cp / 2 ^ 12) mod 2 ^ 6) 7)
    by (try reflexivity; try lia; Z.div_mod_to_equations; lia).
  rewrite (lor_disjoint 0x80 ((cp / 2 ^ 6) mod 2 ^ 6) 7)
    by (try reflexivity; try lia; Z.div_mod_to_equations; lia).
  rewrite (lor_disjoint 0x80 (cp mod 2 ^ 6) 7)
    by (try reflexivity; try lia; Z.div_mod_to_equations; lia).
  split; [| split; [| lia]].
  - unfold lead_length4.
    replace (0xF0 + cp / 2 ^ 18 <? 0x80) with false by lia.
    replace (0xF0 + cp / 2 ^ 18 <? 0xE0) with false by lia.
    replace (0xF0 + cp / 2 ^ 18 <? 0xF0) with false by lia.
    reflexivity.
  - rewrite !Z.shiftl_mul_pow2 by lia.
    replace ((0xF0 + cp / 2 ^ 18) mod 2 ^ 3) with (cp / 2 ^ 18)
      by (Z.div_mod_to_equations; lia).
    replace ((0x80 + (cp / 2 ^ 12) mod 2 ^ 6) mod 2 ^ 6)
      with ((cp / 2 ^ 12) mod 2 ^ 6) by (Z.div_mod_to_equations; lia).
    replace ((0x80 + (cp / 2 ^ 6) mod 2 ^ 6) mod 2 ^ 6)
      with ((cp / 2 ^ 6) mod 2 ^ 6) by (Z.div_mod_to_equations; lia).
    replace ((0x80 + cp mod 2 ^ 6) mod 2 ^ 6)
      with (cp mod 2 ^ 6) by (Z.div_mod_to_equations; lia).
    rewrite (lor_disjoint _ ((cp / 2 ^ 12) mod 2 ^ 6 * 2 ^ 12) 18)
      by (try lia; Z.div_mod_to_equations; lia).
    rewrite (lor_disjoint _ ((cp / 2 ^ 6) mod 2 ^ 6 * 2 ^ 6) 12)
      by (try lia; Z.div_mod_to_equations; lia).
    rewrite (lor_disjoint _ (cp mod 2 ^ 6) 6)
      by (try lia; Z.div_mod_to_equations; lia).
    Z.div_mod_to_equations. lia.
Qed.

Lemma scalar_readback (cp : Z) :
  scalar cp = true ->
  lead_length4 (hd 0 (utf8_of_code_point cp)) = length (utf8_of_code_point cp)
  /\ decode_scalar4 (utf8_of_code_point cp) = cp
  /\ (1 <= length (utf8_of_code_point cp))%nat.
Proof.
  intros Hc. destruct (no_surrogate cp) eqn:Hn.
  - assert (Hr : 0 <= cp < 0 + Z.of_nat (Z.to_nat 0x10000)).
    { rewrite Z2Nat.id by lia. unfold no_surrogate in Hn. lia. }
    assert (H : implb (no_surrogate cp)
                  (Nat.eqb (lead_length4 (hd 0 (utf8_of_code_point cp)))
                           (length (utf8_of_code_point cp))
                   && (decode_scalar4 (utf8_of_code_point cp) =? cp)
                   && Nat.leb 1 (length (utf8_of_code_point cp))) = true).
    { clear Hc Hn. revert cp Hr.
      apply (Z_range_all _ (Z.to_nat 0x10000) 0). vm_compute. reflexivity. }
    rewrite Hn in H. cbn [implb] in H.
    repeat (apply andb_true_iff in H; destruct H as [H ?]).
    repeat split.
    + apply Nat.eqb_eq. assumption.
    + apply Z.eqb_eq. assumption.
    + apply Nat.leb_le. assumption.
  - apply supplementary_readback. unfold scalar in Hc. rewrite Hn in Hc.
    cbn [orb] in Hc. lia.
Qed.

Lemma prefix_same_length {A : Type} (x : list A) :
  forall y r1 r2, length x = length y -> x ++ r1 = y ++ r2 -> x = y /\ r1 = r2.
Proof.
  induction x as [| a x IH]; intros [| b y] r1 r2 Hlen Heq;
    cbn [length app] in *; try discriminate.
  - split; [reflexivity | exact Heq].
  - injection Hlen as Hlen. injection Heq as -> Heq.
    destruct (IH y r1 r2 Hlen Heq) as [-> ->]. split; reflexivity.
Qed.

Lemma scalar_prefix (c d : Z) (r1 r2 : Buffer) :
  scalar c = true -> scalar d = true ->
  utf8_of_code_point c ++ r1 = utf8_of_code_point d ++ r2 ->
  c = d /\ r1 = r2.
Proof.
  intros Hc Hd Heq.
  destruct (scalar_readback c Hc) as (Lc & Dc & Nc).
  destruct (scalar_readback d Hd) as (Ld & Dd & Nd).
  assert (Hhd : hd 0 (utf8_of_code_point c) = hd 0 (utf8_of_code_point d)).
  { apply (f_equal (hd 0)) in Heq.
    destruct (utf8_of_code_point c) as [| x xs]; [cbn in Nc; lia |].
    destruct (utf8_of_code_point d) as [| y ys]; [cbn in Nd; lia |].
    exact Heq. }
  assert (Hlen : length (utf8_of_code_point c) = length (utf8_of_code_point d)).
  { rewrite <- Lc, <- Ld, Hhd. reflexivity. }
  destruct (prefix_same_length _ _ _ _ Hlen Heq) as [Hbytes ->].
  split; [| reflexivity]. rewrite <- Dc, <- Dd, Hbytes. reflexivity.
Qed.

(** A well-formed string starts with the code units of one scalar value,
    and its encoding with the bytes of that value. *)
Lemma first_scalar (c : Z) (rest : jsstring) :
  well_formed (c :: rest) = true ->
  exists cp rest',
    scalar cp = true /\ well_formed rest' = true
    /\ c :: rest = units_of_scalar cp ++ rest'
    /\ utf8_encode (c :: rest) = utf8_of_code_point cp ++ utf8_encode rest'
    /\ (length rest' < length (c :: rest))%nat.
Proof.
  intros H. cbn [well_formed] in H.
  destruct (is_high_surrogate c) eqn:Hh.
  - destruct rest as [| d rest']; [discriminate H |].
    apply andb_true_iff in H. destruct H as [Hl Hw].
    exists (0x10000 + (c - 0xD800) * 0x400 + (d - 0xDC00)), rest'.
    unfold is_high_surrogate in Hh. unfold is_low_surrogate in Hl.
    split; [unfold scalar, no_surrogate; lia |].
    split; [exact Hw |]. split; [| split].
    + unfold units_of_scalar.
      replace (0x10000 + (c - 0xD800) * 0x400 + (d - 0xDC00) <? 0x10000)
        with false by lia.
      replace (0x10000 + (c - 0xD800) * 0x400 + (d - 0xDC00) - 0x10000)
        with ((d - 0xDC00) + (c - 0xD800) * 0x400) by lia.
      rewrite Z.div_add, Z.mod_add by lia.
      rewrite Z.div_small, Z.mod_small by lia.
      cbn [app]. f_equal; [lia | f_equal; lia].
    + cbn [utf8_encode]. unfold is_high_surrogate, is_low_surrogate.
      replace ((0xD800 <=? c) && (c <=? 0xDBFF)) with true by lia.
      replace ((0xDC00 <=? d) && (d <=? 0xDFFF)) with true by lia.
      reflexivity.
    + cbn [length]. lia.
  - apply andb_true_iff in H. destruct H as [Hn Hw].
    exists c, rest.
    split; [unfold scalar; rewrite Hn; reflexivity |].
    split; [exact Hw |]. split; [| split].
    + unfold units_of_scalar, no_surrogate in *.
      replace (c <? 0x10000) with true by lia. reflexivity.
    + cbn [utf8_encode]. rewrite Hh.
      assert (Hl : is_low_surrogate c = false)
        by (unfold is_low_surrogate, no_surrogate in *; lia).
      rewrite Hl. reflexivity.
    + cbn [length]. lia.
Qed.

Lemma utf8_encode_nonempty (c : Z) (rest : jsstring) :
  well_formed (c :: rest) = true -> utf8_encode (c :: rest) <> [].
Proof.
  intros H Heq.
  destruct (first_scalar c rest H) as (cp & rest' & Hs & _ & _ & He & _).
  destruct (scalar_readback cp Hs) as (_ & _ & Hn).
  rewrite He in Heq. apply (f_equal (@length Z)) in Heq.
  rewrite length_app in Heq. cbn [length] in Heq. lia.
Qed.

Lemma utf8_well_formed_injective (n : nat) :
  forall a b,
    (length a <= n)%nat ->
    well_formed a = true -> well_formed b = true ->
    utf8_encode a = utf8_encode b -> a = b.
Proof.
  induction n as [| n IH]; intros [| c a] [| d b] Hlen Ha Hb Heq;
    try reflexivity;
    try (exfalso; apply (utf8_encode_nonempty _ _ Hb); symmetry; exact Heq);
    try (exfalso; apply (utf8_encode_nonempty _ _ Ha); exact Heq).
  - cbn [length] in Hlen. lia.
  - destruct (first_scalar c a Ha) as (cp & a' & Hs & Hwa & Hua & Hea & Hla).
    destruct (first_scalar d b Hb) as (cq & b' & Hs' & Hwb & Hub & Heb & _).
    rewrite Hea, Heb in Heq.
    destruct (scalar_prefix cp cq _ _ Hs Hs' Heq) as [-> Hrest].
    rewrite Hua, Hub. f_equal.
    apply IH; try assumption. cbn [length] in *. lia.
Qed.

Lemma well_formed_app (n : nat) :
  forall a b,
    (length a <= n)%nat ->
    well_formed a = true -> well_formed b = true ->
    well_formed (a ++ b) = true.
Proof.
  induction n as [| n IH]; intros [| c a] b Hlen Ha Hb;
    try exact Hb; cbn [length] in Hlen; [lia |].
  cbn [app well_formed] in *. destruct (is_high_surrogate c).
  - destruct a as [| d a']; [discriminate Ha |].
    apply andb_true_iff in Ha. destruct Ha as [Hl Hw].
    cbn [app]. rewrite Hl. cbn [andb].
    apply IH; try assumption. cbn [length] in Hlen. lia.
  - apply andb_true_iff in Ha. destruct Ha as [Hn Hw].
    rewrite Hn. cbn [andb]. apply IH; try assumption. lia.
Qed.

Lemma well_formed_ascii (s : jsstring) :
  Forall (fun c => 0 <= c < 128) s -> well_formed s = true.
Proof.
  induction 1 as [| c s Hc _ IH]; [reflexivity |].
  cbn [well_formed]. unfold is_high_surrogate, no_surrogate.
  replace ((0xD800 <=? c) && (c <=? 0xDBFF)) with false by lia.
  replace (((0 <=? c) && (c <? 0xD800)) || ((0xE000 <=? c) && (c <? 0x10000)))
    with true by lia.
  exact IH.
Qed.

Lemma message_well_formed (method path timestamp body : jsstring) :
  well_formed method = true -> well_formed path = true ->
  well_formed timestamp = true -> well_formed body = true ->
  well_formed (RequestSigner.message method path timestamp body) = true.
Proof.
  intros Hm Hp Ht Hb. unfold RequestSigner.message.
  repeat (apply (well_formed_app _ _ _ (Nat.le_refl _)); try assumption;
          try reflexivity).
Qed.

(** ** One changed field *)

Lemma message_one_field (x y : Fields) :
  one_field_differs x y -> fields_message x <> fields_message y.
Proof.
  unfold one_field_differs, fields_message, RequestSigner.message.
  destruct x as [m1 p1 t1 b1], y as [m2 p2 t2 b2]. simpl.
  intros [(Hm & -> & -> & ->) | [(-> & Hp & -> & ->)
         | [(-> & -> & Ht & ->) | (-> & -> & -> & Hb)]]] Heq.
  - apply Hm. apply app_inv_tail in Heq. exact Heq.
  - apply Hp. apply app_inv_head in Heq. injection Heq as Heq.
    apply app_inv_tail in Heq. exact Heq.
  - apply Ht. apply app_inv_head in Heq. injection Heq as Heq.
    apply app_inv_head in Heq. injection Heq as Heq.
    apply app_inv_tail in Heq. exact Heq.
  - apply Hb. apply app_inv_head in Heq. injection Heq as Heq.
    apply app_inv_head in Heq. injection Heq as Heq.
    apply app_inv_head in Heq. injection Heq as Heq. exact Heq.
Qed.

Lemma signature_eq_iff_digest_eq (self : RequestSigner.t) (msg1 msg2 : jsstring) :
  RequestSigner.mac self msg1 = RequestSigner.mac self msg2
  <-> hmac_sha256 (RequestSigner.signingKey self) (utf8_encode msg1)
      = hmac_sha256 (RequestSigner.signingKey self) (utf8_encode msg2).
Proof.
  unfold RequestSigner.mac. split.
  - apply base64_encode_injective; apply hmac_bytes.
  - intros ->. reflexivity.
Qed.

(** C5, as amended: take two [sign] calls whose methods, paths and body
    texts have no unpaired surrogate (an absent body and every falsy body
    have the empty body text).  When they differ in exactly one of the four
    texts method, path, timestamp and body text, the byte sequences fed to
    the keyed hash differ, and the two signatures are equal only if
    HMAC-SHA256 under the signer's key gives these two different byte
    sequences the same digest. *)
Theorem sign_one_field_changes_hashed_bytes
    (self : RequestSigner.t) (now1 now2 : Z) (method1 method2 path1 path2 : jsstring)
    (body1 body2 : JsValue) :
  well_formed method1 = true -> well_formed path1 = true ->
  well_formed (RequestSigner.bodyStr body1) = true ->
  well_formed method2 = true -> well_formed path2 = true ->
  well_formed (RequestSigner.bodyStr body2) = true ->
  one_field_differs (sign_fields now1 method1 path1 body1)
                    (sign_fields now2 method2 path2 body2) ->
  exists bytes1 bytes2 r1 r2,
    bytes1 = utf8_encode (fields_message (sign_fields now1 method1 path1 body1))
    /\ bytes2 = utf8_encode (fields_message (sign_fields now2 method2 path2 body2))
    /\ RequestSigner.sign now1 self method1 path1 body1 = Ret r1
    /\ RequestSigner.sign now2 self method2 path2 body2 = Ret r2
    /\ RequestSigner.signature r1
       = base64_encode (hmac_sha256 (RequestSigner.signingKey self) bytes1)
    /\ RequestSigner.signature r2
       = base64_encode (hmac_sha256 (RequestSigner.signingKey self) bytes2)
    /\ bytes1 <> bytes2
    /\ (RequestSigner.signature r1 = RequestSigner.signature r2 ->
        hmac_sha256 (RequestSigner.signingKey self) bytes1
        = hmac_sha256 (RequestSigner.signingKey self) bytes2).
Proof.
  intros Hm1 Hp1 Hb1 Hm2 Hp2 Hb2 Hdiff.
  do 4 eexists. split; [reflexivity |]. split; [reflexivity |].
  split; [reflexivity |]. split; [reflexivity |].
  split; [reflexivity |]. split; [reflexivity |]. split.
  - intros Heq. apply (message_one_field _ _ Hdiff).
    apply (utf8_well_formed_injective _ _ _ (Nat.le_refl _)); [| | exact Heq];
      unfold fields_message, sign_fields;
      cbn [f_method f_path f_timestamp f_body];
      apply message_well_formed; try assumption;
      apply well_formed_ascii, decimal_ascii.
  - cbn [RequestSigner.signature]. apply signature_eq_iff_digest_eq.
Qed.

Lemma sign_one_field_changes_hashed_bytes_witness :
  well_formed (js "GET") = true /\ well_formed (js "/test") = true
  /\ well_formed (RequestSigner.bodyStr JNull) = true
  /\ well_formed (js "POST") = true
  /\ one_field_differs (sign_fields 1700000000123 (js "GET") (js "/test") JNull)
                       (sign_fields 1700000000123 (js "POST") (js "/test") JNull)
  /\ utf8_encode
       (fields_message (sign_fields 1700000000123 (js "GET") (js "/test") JNull))
     <> utf8_encode
          (fields_message (sign_fields 1700000000123 (js "POST") (js "/test") JNull)).
Proof.
  assert (Hm1 : well_formed (js "GET") = true) by reflexivity.
  assert (Hp : well_formed (js "/test") = true) by reflexivity.
  assert (Hb : well_formed (RequestSigner.bodyStr JNull) = true) by reflexivity.
  assert (Hm2 : well_formed (js "POST") = true) by reflexivity.
  assert (H : one_field_differs
                (sign_fields 1700000000123 (js "GET") (js "/test") JNull)
                (sign_fields 1700000000123 (js "POST") (js "/test") JNull)).
  { left. simpl. repeat split. discriminate. }
  split; [exact Hm1 | split; [exact Hp | split; [exact Hb |
    split; [exact Hm2 | split; [exact H |]]]]].
  destruct (sign_one_field_changes_hashed_bytes
              (RequestSigner.mk (repeat 7 32%nat))
              1700000000123 1700000000123 (js "GET") (js "POST")
              (js "/test") (js "/test") JNull JNull
              Hm1 Hp Hb Hm2 Hp Hb H)
    as (bytes1 & bytes2 & r1 & r2 & -> & -> & _ & _ & _ & _ & Hne & _).
  exact Hne.
Defined.

(** C5, the claim as stated fails.  The body 0 is present and the body
    [undefined] is absent, every other field is the same, and the two
    signatures are equal; so are those of the present bodies 0 and
    [false].  Two paths that are different unpaired surrogates give equal
    signatures as well, both being hashed as U+FFFD. *)
Lemma sign_same_signature_for_different_bodies :
  JNum 0 <> JUndefined
  /\ (s <- RequestSigner.constructor (js "test_key") ;;
      RequestSigner.sign 1700000000123 s (js "GET") (js "/test") (JNum 0))
     = (s <- RequestSigner.constructor (js "test_key") ;;
        RequestSigner.sign 1700000000123 s (js "GET") (js "/test") JUndefined)
  /\ JNum 0 <> JBool false
  /\ (s <- RequestSigner.constructor (js "test_key") ;;
      RequestSigner.sign 1700000000123 s (js "GET") (js "/test") (JNum 0))
     = (s <- RequestSigner.constructor (js "test_key") ;;
        RequestSigner.sign 1700000000123 s (js "GET") (js "/test") (JBool false))
  /\ [0xD800] <> [0xD801]
  /\ (s <- RequestSigner.constructor (js "test_key") ;;
      RequestSigner.sign 1700000000123 s (js "GET") [0xD800] JUndefined)
     = (s <- RequestSigner.constructor (js "test_key") ;;
        RequestSigner.sign 1700000000123 s (js "GET") [0xD801] JUndefined).
Proof.
  split_conj; try discriminate; vm_compute; reflexivity.
Qed.

(** ** Construction *)

(** C7, as amended: the constructors validate nothing and never throw.
    For every credential, the empty one included, [SecureLicenseKey]
    stores it as it is and [RequestSigner] keeps the 32 bytes of
    HMAC-SHA256 keyed by the label over the credential. *)
Theorem constructors_accept_every_credential (credential : jsstring) :
  SecureLicenseKey.constructor credential = Ret (SecureLicenseKey.mk credential)
  /\ exists s,
      RequestSigner.constructor credential = Ret s
      /\ RequestSigner.signingKey s
         = hmac_sha256 (utf8_encode (js "truthlinked-request-signing-v1"))
             (utf8_encode credential)
      /\ length (RequestSigner.signingKey s) = 32%nat.
Proof.
  split; [reflexivity |]. eexists. split; [reflexivity |].
  split; [reflexivity | apply hmac_length].
Qed.

(** C7, the claim as stated fails: on the empty credential neither
    constructor throws; the signer is built and holds a key. *)
Lemma constructors_accept_empty_credential :
  throws (SecureLicenseKey.constructor []) = false
  /\ throws (RequestSigner.constructor []) = false
  /\ (k <- SecureLicenseKey.constructor [] ;; Ret (SecureLicenseKey.asString k))
     = Ret []
  /\ (s <- RequestSigner.constructor [] ;;
      Ret (hex_encode (RequestSigner.signingKey s)))
     = Ret (js "61dda11145aa68fda6d68beaf2527552d88e364591ed99afa567698680034aa2").
Proof. split_conj; vm_compute; reflexivity. Qed.

(** ** Destruction *)

Lemma fill_zero (bs : Buffer) : map (fun _ => 0) bs = repeat 0 (length bs).
Proof.
  induction bs as [| b bs IH]; simpl; [reflexivity | rewrite IH; reflexivity].
Qed.

(** C6: after [destroy] the accessor [asString] returns as many NUL
    characters as the secret had characters, which is not the secret
    unless the secret was that text already; a second [destroy] returns
    normally and leaves the same state, hence the same [asString]. *)
Theorem destroy_leaves_placeholder (k : SecureLicenseKey.t) :
  exists k1,
    SecureLicenseKey.destroy k = Ret k1
    /\ SecureLicenseKey.asString k1
       = repeat 0 (length (SecureLicenseKey.asString k))
    /\ length (SecureLicenseKey.asString k1)
       = length (SecureLicenseKey.asString k)
    /\ (SecureLicenseKey.asString k
        <> repeat 0 (length (SecureLicenseKey.asString k)) ->
        SecureLicenseKey.asString k1 <> SecureLicenseKey.asString k)
    /\ SecureLicenseKey.destroy k1 = Ret k1.
Proof.
  destruct k as [secret]. unfold SecureLicenseKey.destroy, SecureLicenseKey.asString.
  simpl. eexists. split; [reflexivity |]. simpl.
  split; [reflexivity |].
  split; [apply repeat_length |].
  split.
  - intros Hne Heq. apply Hne. symmetry. exact Heq.
  - rewrite repeat_length. reflexivity.
Qed.

Lemma destroy_leaves_placeholder_witness :
  js "test_key" <> repeat 0 (length (js "test_key"))
  /\ exists k1,
      SecureLicenseKey.destroy (SecureLicenseKey.mk (js "test_key")) = Ret k1
      /\ SecureLicenseKey.asString k1 <> js "test_key".
Proof.
  assert (H : js "test_key" <> repeat 0 (length (js "test_key")))
    by discriminate.
  split; [exact H |].
  destruct (destroy_leaves_placeholder (SecureLicenseKey.mk (js "test_key")))
    as (k1 & Hd & _ & _ & Hne & _).
  exists k1. split; [exact Hd | exact (Hne H)].
Defined.

(** After [destroy] a signer holds zero bytes only, and it goes on
    working under that key: [sign] returns a signature and [verify]
    accepts it; a second [destroy] changes nothing. *)
Lemma destroyed_signer_uses_zero_key (s : RequestSigner.t) :
  exists d,
    RequestSigner.destroy s = Ret d
    /\ RequestSigner.signingKey d
       = repeat 0 (length (RequestSigner.signingKey s))
    /\ RequestSigner.destroy d = Ret d
    /\ (forall now method path body,
           RequestSigner.sign now d method path body
           = Ret (RequestSigner.mkSigned
                    (decimal (now / 1000))
                    (base64_encode
                       (hmac_sha256
                          (repeat 0 (length (RequestSigner.signingKey s)))
                          (utf8_encode
                             (RequestSigner.message method path
                                (decimal (now / 1000))
                                (RequestSigner.bodyStr body)))))))
    /\ (forall now method path body,
           (r <- RequestSigner.sign now d method path body ;;
            RequestSigner.verify d method path (RequestSigner.bodyStr body)
              (RequestSigner.signature r) (RequestSigner.timestamp r))
           = Ret true)
    /\ (forall method path body signature timestamp,
           length (base64_decode signature) = 32%nat ->
           returns (RequestSigner.verify d method path body signature timestamp)
           = true).
Proof.
  destruct s as [key]. cbn [RequestSigner.signingKey].
  exists (RequestSigner.mk (repeat 0 (length key))).
  assert (Hd : forall bs, RequestSigner.destroy (RequestSigner.mk bs)
                          = Ret (RequestSigner.mk (repeat 0 (length bs)))).
  { intros bs. unfold RequestSigner.destroy. cbn [RequestSigner.signingKey].
    rewrite fill_zero. reflexivity. }
  split; [apply Hd |].
  split; [reflexivity |].
  split; [rewrite Hd, repeat_length; reflexivity |].
  split; [intros; apply sign_unfold |].
  split; [intros; apply sign_verify_roundtrip_any |].
  intros method path body signature timestamp Hlen.
  destruct (verify_right_length (RequestSigner.mk (repeat 0 (length key)))
              method path body signature timestamp Hlen) as [r [Hr _]].
  rewrite Hr. reflexivity.
Qed.




(** The signer of "test_key" after [destroy]: 32 zero bytes, a signature
    under them that [verify] accepts, and the [RangeError] that [verify]
    raises on an empty signature on any signer. *)
Example verify_after_destroy_throws_on_malformed_signature :
  (s <- RequestSigner.constructor (js "test_key") ;;
   d <- RequestSigner.destroy s ;;
   Ret (RequestSigner.signingKey d)) = Ret (repeat 0 32%nat)
  /\ (s <- RequestSigner.constructor (js "test_key") ;;
      d <- RequestSigner.destroy s ;;
      r <- RequestSigner.sign 1700000000123 d (js "GET") (js "/test") JNull ;;
      Ret (RequestSigner.signature r))
     = Ret (js "dJXhxc3i9jW8fXogJN0bm6SB067AKeovAJKm1GnedUs=")
  /\ (s <- RequestSigner.constructor (js "test_key") ;;
      d <- RequestSigner.destroy s ;;
      RequestSigner.verify d (js "GET") (js "/test") []
        (js "dJXhxc3i9jW8fXogJN0bm6SB067AKeovAJKm1GnedUs=") (js "1700000000"))
     = Ret true
  /\ (s <- RequestSigner.constructor (js "test_key") ;;
      d <- RequestSigner.destroy s ;;
      RequestSigner.verify d (js "GET") (js "/test") [] [] (js "1700000000"))
     = Throw RangeError.
Proof. split_conj; vm_compute; reflexivity. Qed.

(** * Further properties of crypto.ts *)

(** ** What [verify] returns *)

Lemma timingSafeEqual_true_iff (a b : Buffer) :
  timingSafeEqual a b = Ret true <-> a = b.
Proof.
  split.
  - intros H. destruct (Nat.eq_dec (length a) (length b)) as [Hlen | Hlen].
    + destruct (timingSafeEqual_same_length a b Hlen) as [r [Hr Hiff]].
      rewrite Hr in H. injection H as ->. apply Hiff. reflexivity.
    + rewrite (timingSafeEqual_length_mismatch a b Hlen) in H. discriminate H.
  - intros ->. apply timingSafeEqual_refl.
Qed.

(** X1: [verify] throws a [RangeError] exactly when the supplied signature
    does not decode to 32 bytes; when it does, [verify] returns a boolean,
    which is [true] exactly when those bytes are the HMAC-SHA256 of the
    message under the signer's key. *)
Theorem verify_outcome
    (self : RequestSigner.t) (method path body signature timestamp : jsstring) :
  (length (base64_decode signature) <> 32%nat ->
   RequestSigner.verify self method path body signature timestamp
   = Throw RangeError)
  /\ (length (base64_decode signature) = 32%nat ->
      exists r,
        RequestSigner.verify self method path body signature timestamp = Ret r
        /\ (r = true <->
            base64_decode signature
            = hmac_sha256 (RequestSigner.signingKey self)
                (utf8_encode
                   (method ++ [10] ++ path ++ [10] ++ timestamp ++ [10] ++ body)))).
Proof.
  split.
  - apply verify_wrong_length.
  - apply verify_right_length.
Qed.

Lemma verify_outcome_witness :
  length (base64_decode (js "AAAA")) <> 32%nat
  /\ RequestSigner.verify (RequestSigner.mk (repeat 7 32%nat))
       (js "GET") (js "/test") [] (js "AAAA") (js "1700000000")
     = Throw RangeError
  /\ length (base64_decode (js "Grfj/8Px+lFO1c3VWTEY4vSfMSpyqUKv84zMGN4jquc="))
     = 32%nat
  /\ returns (RequestSigner.verify (RequestSigner.mk (repeat 7 32%nat))
                (js "GET") (js "/test") []
                (js "Grfj/8Px+lFO1c3VWTEY4vSfMSpyqUKv84zMGN4jquc=")
                (js "1700000000"))
     = true.
Proof.
  assert (H1 : length (base64_decode (js "AAAA")) <> 32%nat).
  { vm_compute. intros H. discriminate H. }
  assert (H2 : length (base64_decode
                         (js "Grfj/8Px+lFO1c3VWTEY4vSfMSpyqUKv84zMGN4jquc="))
               = 32%nat).
  { vm_compute. reflexivity. }
  split; [exact H1 | split; [| split; [exact H2 |]]].
  - exact (proj1 (verify_outcome (RequestSigner.mk (repeat 7 32%nat))
                    (js "GET") (js "/test") [] (js "AAAA") (js "1700000000")) H1).
  - destruct (proj2 (verify_outcome (RequestSigner.mk (repeat 7 32%nat))
                       (js "GET") (js "/test") []
                       (js "Grfj/8Px+lFO1c3VWTEY4vSfMSpyqUKv84zMGN4jquc=")
                       (js "1700000000")) H2) as [r [Hr _]].
    rewrite Hr. reflexivity.
Defined.

(** ** The shape of a signature *)

Lemma base64_encode_length (bs : Buffer) :
  length (base64_encode bs) = (4 * ((length bs + 2) / 3))%nat.
Proof.
  induction bs as [| a | a b | a b c rest IH] using list_ind3;
    try reflexivity.
  cbn [base64_encode length]. rewrite IH.
  replace (S (S (S (length rest))) + 2)%nat
    with (1 * 3 + (length rest + 2))%nat by lia.
  rewrite Nat.div_add_l by lia. lia.
Qed.

Lemma base64_encode_padded (bs : Buffer) :
  (length bs mod 3 <> 0)%nat ->
  exists body, base64_encode bs = body ++ [61].
Proof.
  induction bs as [| a | a b | a b c rest IH] using list_ind3; intros Hmod.
  - exfalso. apply Hmod. reflexivity.
  - eexists [_; _; _]. reflexivity.
  - eexists [_; _; _]. reflexivity.
  - destruct IH as [body Hbody].
    + intros H. apply Hmod. cbn [length].
      replace (S (S (S (length rest)))) with (length rest + 1 * 3)%nat by lia.
      rewrite Nat.Div0.mod_add. exact H.
    + cbn [base64_encode]. rewrite Hbody.
      eexists (_ :: _ :: _ :: _ :: body). reflexivity.
Qed.

Lemma sextets_stop (body rest1 rest2 : jsstring) :
  sextets (body ++ 61 :: rest1) = sextets (body ++ 61 :: rest2).
Proof.
  induction body as [| c body IH]; [reflexivity |].
  cbn [app sextets]. destruct (low_byte c =? 61); [reflexivity |].
  destruct (unbase64 c); rewrite IH; reflexivity.
Qed.

Lemma base64_decode_trailing (bs : Buffer) (junk : jsstring) :
  (length bs mod 3 <> 0)%nat ->
  base64_decode (base64_encode bs ++ junk) = base64_decode (base64_encode bs).
Proof.
  intros Hmod. destruct (base64_encode_padded bs Hmod) as [body ->].
  unfold base64_decode. rewrite <- app_assoc. cbn [app].
  rewrite (sextets_stop body junk []). reflexivity.
Qed.

(** X2: the signature [sign] returns is always 44 characters long, ends
    with the padding character [=], and decodes to the 32 bytes of the
    HMAC-SHA256 of the canonical message. *)
Theorem sign_signature_shape
    (now : Z) (self : RequestSigner.t) (method path : jsstring) (body : JsValue) :
  exists r,
    RequestSigner.sign now self method path body = Ret r
    /\ length (RequestSigner.signature r) = 44%nat
    /\ (exists text, RequestSigner.signature r = text ++ [61])
    /\ base64_decode (RequestSigner.signature r)
       = hmac_sha256 (RequestSigner.signingKey self)
           (utf8_encode
              (RequestSigner.message method path (RequestSigner.timestamp r)
                 (RequestSigner.bodyStr body)))
    /\ length (base64_decode (RequestSigner.signature r)) = 32%nat.
Proof.
  eexists. split; [reflexivity |].
  cbn [RequestSigner.signature RequestSigner.timestamp]. unfold RequestSigner.mac.
  split; [rewrite base64_encode_length, hmac_length; reflexivity |].
  split; [apply base64_encode_padded; rewrite hmac_length; discriminate |].
  rewrite base64_roundtrip by apply hmac_bytes.
  split; [reflexivity | apply hmac_length].
Qed.

(** X3: [verify] does not require the canonical text of a signature: the
    signature [sign] returned still verifies when any text at all is
    appended to it, because decoding stops at the padding character. *)
Theorem verify_accepts_trailing_text
    (now : Z) (self : RequestSigner.t) (method path : jsstring) (body : JsValue)
    (junk : jsstring) :
  (r <- RequestSigner.sign now self method path body ;;
   RequestSigner.verify self method path (RequestSigner.bodyStr body)
     (RequestSigner.signature r ++ junk) (RequestSigner.timestamp r)) = Ret true.
Proof.
  unfold RequestSigner.sign, RequestSigner.verify. rewrite bind_ret.
  cbn [RequestSigner.signature RequestSigner.timestamp].
  apply timingSafeEqual_true_iff. unfold RequestSigner.mac.
  apply base64_decode_trailing. rewrite hmac_length. discriminate.
Qed.

(** ** Destroyed signers *)

Lemma zero_key_is_empty_key (msg : Buffer) :
  hmac_sha256 (repeat 0 32%nat) msg = hmac_sha256 [] msg.
Proof.
  unfold hmac_sha256.
  replace (hmac_key_block (repeat 0 32%nat)) with (hmac_key_block [])
    by (vm_compute; reflexivity).
  reflexivity.
Qed.

(** X4: [destroy] on a signer never throws and overwrites the key with
    zero bytes, keeping its length; a second [destroy] leaves that state
    unchanged; on the destroyed signer [sign] still returns a signature
    and [verify] accepts it. *)
Theorem signer_destroy_zeroes_key (s : RequestSigner.t) :
  exists d,
    RequestSigner.destroy s = Ret d
    /\ RequestSigner.signingKey d
       = repeat 0 (length (RequestSigner.signingKey s))
    /\ RequestSigner.destroy d = Ret d
    /\ (forall now method path body,
           (r <- RequestSigner.sign now d method path body ;;
            RequestSigner.verify d method path (RequestSigner.bodyStr body)
              (RequestSigner.signature r) (RequestSigner.timestamp r))
           = Ret true).
Proof.
  destruct (destroyed_signer_uses_zero_key s)
    as (d & Hd & Hkey & Hidem & _ & Hround & _).
  exists d. repeat split; assumption.
Qed.

(** X5: once destroyed, a signer no longer depends on its credential: for
    every credential, [sign] on the destroyed signer returns the base64
    HMAC-SHA256 of the canonical message under the empty key, so two
    destroyed signers of different credentials sign alike and accept each
    other's signatures. *)
Theorem destroyed_signers_agree
    (credential1 credential2 : jsstring) (now : Z) (method path : jsstring)
    (body : JsValue) :
  (s <- RequestSigner.constructor credential1 ;;
   d <- RequestSigner.destroy s ;;
   RequestSigner.sign now d method path body)
  = Ret (RequestSigner.mkSigned
           (decimal (now / 1000))
           (base64_encode
              (hmac_sha256 []
                 (utf8_encode
                    (RequestSigner.message method path (decimal (now / 1000))
                       (RequestSigner.bodyStr body))))))
  /\ (s1 <- RequestSigner.constructor credential1 ;;
      d1 <- RequestSigner.destroy s1 ;;
      s2 <- RequestSigner.constructor credential2 ;;
      d2 <- RequestSigner.destroy s2 ;;
      r <- RequestSigner.sign now d1 method path body ;;
      RequestSigner.verify d2 method path (RequestSigner.bodyStr body)
        (RequestSigner.signature r) (RequestSigner.timestamp r))
     = Ret true.
Proof.
  assert (Hd' : forall c (B : Type) (k : RequestSigner.t -> outcome B),
             (s <- RequestSigner.constructor c ;;
              d <- RequestSigner.destroy s ;; k d)
             = k (RequestSigner.mk (repeat 0 32%nat))).
  { intros c B k. unfold RequestSigner.constructor, RequestSigner.destroy.
    rewrite !bind_ret. cbn [RequestSigner.signingKey].
    rewrite fill_zero, hmac_length. reflexivity. }
  split.
  - rewrite Hd'. unfold RequestSigner.sign, RequestSigner.mac.
    cbn [RequestSigner.signingKey]. rewrite zero_key_is_empty_key. reflexivity.
  - rewrite Hd'. rewrite Hd'. apply sign_verify_roundtrip_any.
Qed.

(** ** The canonical message can be taken apart *)

Lemma split_at_newline (a a' r r' : jsstring) :
  no_newline a -> no_newline a' ->
  a ++ 10 :: r = a' ++ 10 :: r' -> a = a' /\ r = r'.
Proof.
  revert a'. induction a as [| x a IH]; intros [| y a'] Ha Ha' Heq;
    cbn [app] in Heq.
  - injection Heq as ->. split; reflexivity.
  - injection Heq as <- _. inversion Ha' as [| ? ? Hy _]. contradiction.
  - injection Heq as -> _. inversion Ha as [| ? ? Hx _]. contradiction.
  - injection Heq as -> Heq.
    inversion Ha as [| ? ? _ Ha1]; inversion Ha' as [| ? ? _ Ha1']; subst.
    destruct (IH a' Ha1 Ha1' Heq) as [-> ->]. split; reflexivity.
Qed.

Lemma message_parts
    (method1 path1 timestamp1 body1 method2 path2 timestamp2 body2 : jsstring) :
  no_newline method1 -> no_newline path1 -> no_newline timestamp1 ->
  no_newline method2 -> no_newline path2 -> no_newline timestamp2 ->
  RequestSigner.message method1 path1 timestamp1 body1
  = RequestSigner.message method2 path2 timestamp2 body2 ->
  method1 = method2 /\ path1 = path2 /\ timestamp1 = timestamp2 /\ body1 = body2.
Proof.
  intros Hm1 Hp1 Ht1 Hm2 Hp2 Ht2 Heq. unfold RequestSigner.message in Heq.
  cbn [app] in Heq.
  destruct (split_at_newline _ _ _ _ Hm1 Hm2 Heq) as [-> Heq1].
  destruct (split_at_newline _ _ _ _ Hp1 Hp2 Heq1) as [-> Heq2].
  destruct (split_at_newline _ _ _ _ Ht1 Ht2 Heq2) as [-> ->].
  repeat split; reflexivity.
Qed.

(** X6: when the methods, paths and timestamps contain no newline, the
    canonical message determines its four fields: two calls with the same
    message have the same method, path, timestamp and body. *)
Theorem message_unambiguous
    (method1 path1 timestamp1 body1 method2 path2 timestamp2 body2 : jsstring) :
  no_newline method1 -> no_newline path1 -> no_newline timestamp1 ->
  no_newline method2 -> no_newline path2 -> no_newline timestamp2 ->
  RequestSigner.message method1 path1 timestamp1 body1
  = RequestSigner.message method2 path2 timestamp2 body2 ->
  method1 = method2 /\ path1 = path2 /\ timestamp1 = timestamp2 /\ body1 = body2.
Proof. apply message_parts. Qed.

Lemma message_unambiguous_witness :
  no_newline (js "GET") /\ no_newline (js "/test")
  /\ no_newline (js "1700000000")
  /\ RequestSigner.message (js "GET") (js "/test") (js "1700000000") (js "{}")
     = RequestSigner.message (js "GET") (js "/test") (js "1700000000") (js "{}")
  /\ js "{}" = js "{}".
Proof.
  assert (Hm : no_newline (js "GET")) by (repeat constructor; discriminate).
  assert (Hp : no_newline (js "/test")) by (repeat constructor; discriminate).
  assert (Ht : no_newline (js "1700000000"))
    by (repeat constructor; discriminate).
  split; [exact Hm | split; [exact Hp | split; [exact Ht | split]]].
  - reflexivity.
  - exact (proj2 (proj2 (proj2
             (message_unambiguous _ _ _ (js "{}") _ _ _ (js "{}")
                Hm Hp Ht Hm Hp Ht eq_refl)))).
Defined.



(** ** [constantTimeEqual] on texts *)

Lemma utf8_encode_ascii (s : jsstring) :
  Forall (fun c => 0 <= c < 128) s -> utf8_encode s = s.
Proof.
  induction s as [| c s IH]; intros H; [reflexivity |].
  inversion H as [| ? ? Hc Hs]; subst.
  cbn [utf8_encode]. unfold is_high_surrogate, is_low_surrogate, utf8_of_code_point.
  replace (0xD800 <=? c) with false by lia.
  replace (0xDC00 <=? c) with false by lia.
  replace (c <? 0x80) with true by lia.
  cbn [andb app]. rewrite (IH Hs). reflexivity.
Qed.

(** X8: on ASCII texts [constantTimeEqual] never throws and decides
    equality: it returns [true] when the two texts are equal and [false]
    when they are not. *)
Theorem constantTimeEqual_ascii (a b : jsstring) :
  Forall (fun c => 0 <= c < 128) a -> Forall (fun c => 0 <= c < 128) b ->
  exists r, constantTimeEqual a b = Ret r /\ (r = true <-> a = b).
Proof.
  intros Ha Hb. unfold constantTimeEqual.
  rewrite (utf8_encode_ascii a Ha), (utf8_encode_ascii b Hb).
  destruct (Nat.eq_dec (length a) (length b)) as [Hlen | Hlen].
  - rewrite (proj2 (Nat.eqb_eq _ _) Hlen). cbn [negb].
    apply timingSafeEqual_same_length, Hlen.
  - rewrite (proj2 (Nat.eqb_neq _ _) Hlen). cbn [negb].
    exists false. split; [reflexivity |]. split; [discriminate |].
    intros ->. contradiction.
Qed.

Lemma constantTimeEqual_ascii_witness :
  Forall (fun c => 0 <= c < 128) (js "test")
  /\ Forall (fun c => 0 <= c < 128) (js "fail")
  /\ exists r, constantTimeEqual (js "test") (js "fail") = Ret r
               /\ (r = true <-> js "test" = js "fail").
Proof.
  assert (Ha : Forall (fun c => 0 <= c < 128) (js "test"))
    by (repeat constructor; cbn; lia).
  assert (Hb : Forall (fun c => 0 <= c < 128) (js "fail"))
    by (repeat constructor; cbn; lia).
  split; [exact Ha | split; [exact Hb |]].
  exact (constantTimeEqual_ascii (js "test") (js "fail") Ha Hb).
Defined.

Lemma constantTimeEqual_returns_true (a b : jsstring) :
  constantTimeEqual a b = Ret true
  <-> length a = length b /\ utf8_encode a = utf8_encode b.
Proof.
  unfold constantTimeEqual.
  destruct (Nat.eq_dec (length a) (length b)) as [Hlen | Hlen].
  - rewrite (proj2 (Nat.eqb_eq _ _) Hlen). cbn [negb].
    rewrite timingSafeEqual_true_iff. tauto.
  - rewrite (proj2 (Nat.eqb_neq _ _) Hlen). cbn [negb]. split.
    + discriminate.
    + intros [H _]. contradiction.
Qed.

(** X9: [constantTimeEqual] returns [true] exactly when the two strings
    have the same [length] and the same UTF-8 encoding.  That is weaker
    than being equal: the unpaired surrogates U+D800 and U+DC00 are
    different strings and compare equal. *)
Theorem constantTimeEqual_true_iff (a b : jsstring) :
  (constantTimeEqual a b = Ret true
   <-> length a = length b /\ utf8_encode a = utf8_encode b)
  /\ [0xD800] <> [0xDC00]
  /\ constantTimeEqual [0xD800] [0xDC00] = Ret true.
Proof.
  split; [apply constantTimeEqual_returns_true |].
  split; [discriminate | reflexivity].
Qed.

Lemma utf8_scalar_readback (c : Z) :
  no_surrogate c = true ->
  lead_length (hd 0 (utf8_of_code_point c)) = length (utf8_of_code_point c)
  /\ decode_scalar (utf8_of_code_point c) = c
  /\ (1 <= length (utf8_of_code_point c))%nat.
Proof.
  intros Hc.
  assert (Hr : 0 <= c < 0 + Z.of_nat (Z.to_nat 65536)).
  { rewrite Z2Nat.id by lia. unfold no_surrogate in Hc. lia. }
  assert (H : implb (no_surrogate c)
                (Nat.eqb (lead_length (hd 0 (utf8_of_code_point c)))
                         (length (utf8_of_code_point c))
                 && (decode_scalar (utf8_of_code_point c) =? c)
                 && Nat.leb 1 (length (utf8_of_code_point c))) = true).
  { revert c Hr Hc. intros c Hr _. revert c Hr.
    apply (Z_range_all _ (Z.to_nat 65536) 0). vm_compute. reflexivity. }
  rewrite Hc in H. cbn [implb] in H.
  repeat (apply andb_true_iff in H; destruct H as [H ?]).
  repeat split.
  - apply Nat.eqb_eq. assumption.
  - apply Z.eqb_eq. assumption.
  - apply Nat.leb_le. assumption.
Qed.

Lemma app_same_length {A : Type} (x : list A) :
  forall y r1 r2, length x = length y -> x ++ r1 = y ++ r2 -> x = y /\ r1 = r2.
Proof.
  induction x as [| a x IH]; intros [| b y] r1 r2 Hlen Heq;
    cbn [length app] in *; try discriminate.
  - split; [reflexivity | exact Heq].
  - injection Hlen as Hlen. injection Heq as -> Heq.
    destruct (IH y r1 r2 Hlen Heq) as [-> ->]. split; reflexivity.
Qed.

Lemma utf8_scalar_prefix (c d : Z) (r1 r2 : Buffer) :
  no_surrogate c = true -> no_surrogate d = true ->
  utf8_of_code_point c ++ r1 = utf8_of_code_point d ++ r2 ->
  c = d /\ r1 = r2.
Proof.
  intros Hc Hd Heq.
  destruct (utf8_scalar_readback c Hc) as (Lc & Dc & Nc).
  destruct (utf8_scalar_readback d Hd) as (Ld & Dd & Nd).
  assert (Hhd : hd 0 (utf8_of_code_point c) = hd 0 (utf8_of_code_point d)).
  { apply (f_equal (hd 0)) in Heq.
    destruct (utf8_of_code_point c) as [| x xs]; [cbn in Nc; lia |].
    destruct (utf8_of_code_point d) as [| y ys]; [cbn in Nd; lia |].
    exact Heq. }
  assert (Hlen : length (utf8_of_code_point c) = length (utf8_of_code_point d)).
  { rewrite <- Lc, <- Ld, Hhd. reflexivity. }
  destruct (app_same_length _ _ _ _ Hlen Heq) as [Hbytes ->].
  split; [| reflexivity]. rewrite <- Dc, <- Dd, Hbytes. reflexivity.
Qed.

Lemma utf8_encode_scalar (c : Z) (rest : jsstring) :
  no_surrogate c = true ->
  utf8_encode (c :: rest) = utf8_of_code_point c ++ utf8_encode rest.
Proof.
  intros Hc. cbn [utf8_encode].
  assert (Hh : is_high_surrogate c = false)
    by (unfold is_high_surrogate, no_surrogate in *; lia).
  assert (Hl : is_low_surrogate c = false)
    by (unfold is_low_surrogate, no_surrogate in *; lia).
  rewrite Hh, Hl. reflexivity.
Qed.

Lemma utf8_encode_injective (a : jsstring) :
  forall b,
    Forall (fun c => no_surrogate c = true) a ->
    Forall (fun c => no_surrogate c = true) b ->
    utf8_encode a = utf8_encode b -> a = b.
Proof.
  induction a as [| c a IH]; intros [| d b] Ha Hb Heq.
  - reflexivity.
  - inversion Hb as [| ? ? Hd _]; subst.
    rewrite (utf8_encode_scalar d b Hd) in Heq.
    destruct (utf8_scalar_readback d Hd) as (_ & _ & Nd).
    apply (f_equal (@length Z)) in Heq. rewrite length_app in Heq.
    cbn [utf8_encode length] in Heq. lia.
  - inversion Ha as [| ? ? Hc _]; subst.
    rewrite (utf8_encode_scalar c a Hc) in Heq.
    destruct (utf8_scalar_readback c Hc) as (_ & _ & Nc).
    apply (f_equal (@length Z)) in Heq. rewrite length_app in Heq.
    cbn [utf8_encode length] in Heq. lia.
  - inversion Ha as [| ? ? Hc Ha']; inversion Hb as [| ? ? Hd Hb']; subst.
    rewrite (utf8_encode_scalar c a Hc), (utf8_encode_scalar d b Hd) in Heq.
    destruct (utf8_scalar_prefix c d _ _ Hc Hd Heq) as [-> Hrest].
    f_equal. apply IH; assumption.
Qed.

(** X19: on strings that contain no surrogate code unit, a [true] from
    [constantTimeEqual] means the two strings are equal, and equal strings
    always give [true]. *)
Theorem constantTimeEqual_no_surrogates (a b : jsstring) :
  Forall (fun c => no_surrogate c = true) a ->
  Forall (fun c => no_surrogate c = true) b ->
  (constantTimeEqual a b = Ret true <-> a = b).
Proof.
  intros Ha Hb. rewrite constantTimeEqual_returns_true. split.
  - intros [_ Heq]. apply utf8_encode_injective; assumption.
  - intros ->. split; reflexivity.
Qed.

Lemma constantTimeEqual_no_surrogates_witness :
  Forall (fun c => no_surrogate c = true) [0x20AC; 0xE9]
  /\ (constantTimeEqual [0x20AC; 0xE9] [0x20AC; 0xE9] = Ret true
      <-> [0x20AC; 0xE9] = [0x20AC; 0xE9]).
Proof.
  assert (H : Forall (fun c => no_surrogate c = true) [0x20AC; 0xE9])
    by (repeat constructor).
  split; [exact H |].
  exact (constantTimeEqual_no_surrogates [0x20AC; 0xE9] [0x20AC; 0xE9] H H).
Defined.

(** ** Redaction *)

(** X10: [redacted] shows at most six characters of the secret.  For a
    secret of more than 8 characters it is the first three, three dots and
    the last three, 9 characters in all; for any shorter secret it is the
    fixed text of three asterisks; [toString] is the same text. *)
Theorem redacted_shape (k : SecureLicenseKey.t) :
  SecureLicenseKey.toString k = SecureLicenseKey.redacted k
  /\ ((8 < length (SecureLicenseKey.asString k))%nat ->
      SecureLicenseKey.redacted k
      = firstn 3 (SecureLicenseKey.asString k) ++ [46; 46; 46]
          ++ rev (firstn 3 (rev (SecureLicenseKey.asString k)))
      /\ length (SecureLicenseKey.redacted k) = 9%nat)
  /\ ((length (SecureLicenseKey.asString k) <= 8)%nat ->
      SecureLicenseKey.redacted k = [42; 42; 42]).
Proof.
  destruct k as [secret].
  unfold SecureLicenseKey.toString, SecureLicenseKey.redacted,
    SecureLicenseKey.asString.
  cbn [SecureLicenseKey.key].
  split; [reflexivity | split].
  - intros Hlen. rewrite (proj2 (Nat.ltb_lt _ _) Hlen).
    assert (Hlast : skipn (length secret - 3) secret
                    = rev (firstn 3 (rev secret))).
    { rewrite firstn_rev, rev_involutive. reflexivity. }
    rewrite Hlast. split; [reflexivity |].
    rewrite !length_app, length_rev, !length_firstn, length_rev.
    change (length (js "...")) with 3%nat. lia.
  - intros Hlen. rewrite (proj2 (Nat.ltb_ge _ _) Hlen). reflexivity.
Qed.

Lemma redacted_shape_witness :
  (8 < length (js "tl_free_secret123456789"))%nat
  /\ SecureLicenseKey.redacted (SecureLicenseKey.mk (js "tl_free_secret123456789"))
     = js "tl_...789"
  /\ (length (js "short") <= 8)%nat
  /\ SecureLicenseKey.redacted (SecureLicenseKey.mk (js "short")) = js "***".
Proof.
  assert (H1 : (8 < length (js "tl_free_secret123456789"))%nat) by (cbn; lia).
  assert (H2 : (length (js "short") <= 8)%nat) by (cbn; lia).
  split; [exact H1 | split; [| split; [exact H2 |]]].
  - exact (proj1 (proj1 (proj2 (redacted_shape
             (SecureLicenseKey.mk (js "tl_free_secret123456789")))) H1)).
  - exact (proj2 (proj2 (redacted_shape (SecureLicenseKey.mk (js "short")))) H2).
Defined.

(** X11: after [destroy] the redacted text no longer depends on the
    secret: it is three NUL characters, three dots and three NUL characters
    when the secret had more than 8 characters, and three asterisks
    otherwise. *)
Theorem redacted_after_destroy (k : SecureLicenseKey.t) :
  (d <- SecureLicenseKey.destroy k ;; Ret (SecureLicenseKey.redacted d))
  = Ret (if (8 <? length (SecureLicenseKey.asString k))%nat
         then [0; 0; 0; 46; 46; 46; 0; 0; 0]
         else [42; 42; 42]).
Proof.
  destruct k as [secret]. unfold SecureLicenseKey.destroy. rewrite bind_ret.
  unfold SecureLicenseKey.redacted, SecureLicenseKey.asString.
  cbn [SecureLicenseKey.key]. rewrite repeat_length.
  destruct (8 <? length secret)%nat eqn:Hlen; [| reflexivity].
  apply Nat.ltb_lt in Hlen. f_equal.
  remember (length secret) as n eqn:Hn. clear Hn secret.
  do 9 (destruct n as [| n]; [lia |]).
  replace (S (S (S (S (S (S (S (S (S n)))))))) - 3)%nat with (6 + n)%nat by lia.
  replace (S (S (S (S (S (S (S (S (S n)))))))))%nat with ((6 + n) + 3)%nat at 2 by lia.
  rewrite repeat_app, skipn_app, repeat_length.
  replace (6 + n - (6 + n))%nat with 0%nat by lia.
  rewrite (skipn_all2 (repeat 0 (6 + n))) by (rewrite repeat_length; lia).
  reflexivity.
Qed.

(** ** Hexadecimal output: [sha256] and [generateNonce] *)

Lemma hex_encode_length (bs : Buffer) :
  length (hex_encode bs) = (2 * length bs)%nat.
Proof.
  induction bs as [| b bs IH]; [reflexivity |].
  cbn [hex_encode flat_map app length] in *. unfold hex_encode in IH.
  rewrite IH. lia.
Qed.

Lemma hex_byte (b : Z) :
  byte_ok b ->
  is_hex_char (hex_digit (Z.shiftr b 4)) = true
  /\ is_hex_char (hex_digit (Z.land b 0xF)) = true
  /\ 16 * unhex (hex_digit (Z.shiftr b 4)) + unhex (hex_digit (Z.land b 0xF)) = b.
Proof.
  intros Hb.
  assert (H : (is_hex_char (hex_digit (Z.shiftr b 4))
               && is_hex_char (hex_digit (Z.land b 0xF))
               && (16 * unhex (hex_digit (Z.shiftr b 4))
                   + unhex (hex_digit (Z.land b 0xF)) =? b)) = true).
  { revert b Hb. apply (below_all 256). vm_compute. reflexivity. }
  repeat (apply andb_true_iff in H; destruct H as [H ?]).
  repeat split; try assumption. lia.
Qed.

Lemma hex_encode_chars (bs : Buffer) :
  Forall byte_ok bs -> Forall (fun c => is_hex_char c = true) (hex_encode bs).
Proof.
  induction 1 as [| b bs Hb _ IH]; [constructor |].
  destruct (hex_byte b Hb) as (H1 & H2 & _).
  cbn [hex_encode flat_map app]. constructor; [exact H1 |].
  constructor; [exact H2 | exact IH].
Qed.

Lemma hex_encode_injective (xs : Buffer) :
  forall ys, Forall byte_ok xs -> Forall byte_ok ys ->
  hex_encode xs = hex_encode ys -> xs = ys.
Proof.
  induction xs as [| x xs IH]; intros [| y ys] Hx Hy Heq;
    cbn [hex_encode flat_map app] in Heq; try discriminate; [reflexivity |].
  inversion Hx as [| ? ? Hx0 Hxs]; inversion Hy as [| ? ? Hy0 Hys]; subst.
  injection Heq as Hhi Hlo Hrest.
  destruct (hex_byte x Hx0) as (_ & _ & Ex).
  destruct (hex_byte y Hy0) as (_ & _ & Ey).
  rewrite Hhi, Hlo, Ey in Ex. subst y.
  f_equal. apply IH; assumption.
Qed.

(** X12: for every text, [sha256] returns 64 characters, each of them a
    digit or a letter from a to f. *)
Theorem sha256_hex_shape (data : jsstring) :
  length (sha256 data) = 64%nat
  /\ Forall (fun c => is_hex_char c = true) (sha256 data).
Proof.
  unfold sha256. split.
  - rewrite hex_encode_length, digest_length. reflexivity.
  - apply hex_encode_chars, digest_bytes.
Qed.

(** X13: from 32 random bytes [generateNonce] makes 64 characters of the
    class 0-9a-f, and different random bytes give different nonces. *)
Theorem generateNonce_shape (random1 random2 : Buffer) :
  length random1 = 32%nat -> Forall byte_ok random1 ->
  length random2 = 32%nat -> Forall byte_ok random2 ->
  length (generateNonce random1) = 64%nat
  /\ Forall (fun c => is_hex_char c = true) (generateNonce random1)
  /\ (random1 <> random2 -> generateNonce random1 <> generateNonce random2).
Proof.
  intros Hl1 Hb1 Hl2 Hb2. unfold generateNonce.
  split; [rewrite hex_encode_length, Hl1; reflexivity |].
  split; [apply hex_encode_chars, Hb1 |].
  intros Hne Heq. apply Hne. apply hex_encode_injective; assumption.
Qed.

Lemma generateNonce_shape_witness :
  length (repeat 7 32%nat) = 32%nat /\ Forall byte_ok (repeat 7 32%nat)
  /\ length (repeat 9 32%nat) = 32%nat /\ Forall byte_ok (repeat 9 32%nat)
  /\ repeat 7 32%nat <> repeat 9 32%nat
  /\ generateNonce (repeat 7 32%nat) <> generateNonce (repeat 9 32%nat).
Proof.
  assert (Hl1 : length (repeat 7 32%nat) = 32%nat) by reflexivity.
  assert (Hl2 : length (repeat 9 32%nat) = 32%nat) by reflexivity.
  assert (Hb1 : Forall byte_ok (repeat 7 32%nat))
    by (repeat constructor; unfold byte_ok; lia).
  assert (Hb2 : Forall byte_ok (repeat 9 32%nat))
    by (repeat constructor; unfold byte_ok; lia).
  assert (Hne : repeat 7 32%nat <> repeat 9 32%nat) by discriminate.
  split; [exact Hl1 | split; [exact Hb1 | split; [exact Hl2 |
    split; [exact Hb2 | split; [exact Hne |]]]]].
  exact (proj2 (proj2 (generateNonce_shape _ _ Hl1 Hb1 Hl2 Hb2)) Hne).
Defined.

(** * Properties of client.ts *)

(** ** Headers *)

Lemma jsstring_eqb_eq (a : jsstring) : forall b, jsstring_eqb a b = true <-> a = b.
Proof.
  induction a as [| x a IH]; intros [| y b]; cbn [jsstring_eqb];
    try (split; [discriminate | discriminate]).
  - split; reflexivity.
  - rewrite andb_true_iff, Z.eqb_eq, IH. split.
    + intros [-> ->]. reflexivity.
    + intros H. injection H as -> ->. split; reflexivity.
Qed.

Lemma jsstring_eqb_refl (a : jsstring) : jsstring_eqb a a = true.
Proof. apply jsstring_eqb_eq. reflexivity. Qed.

Lemma jsstring_eqb_neq (a b : jsstring) : a <> b -> jsstring_eqb a b = false.
Proof.
  intros Hne. destruct (jsstring_eqb a b) eqn:H; [| reflexivity].
  apply jsstring_eqb_eq in H. contradiction.
Qed.

Lemma get_set_same (name value : jsstring) (h : Headers) :
  get_header name (set_header name value h) = Some value.
Proof.
  induction h as [| [n v] h IH]; cbn [set_header get_header].
  - rewrite jsstring_eqb_refl. reflexivity.
  - destruct (jsstring_eqb n name) eqn:Hn; cbn [get_header]; rewrite Hn.
    + reflexivity.
    + exact IH.
Qed.

Lemma get_set_other (name other value : jsstring) (h : Headers) :
  other <> name ->
  get_header name (set_header other value h) = get_header name h.
Proof.
  intros Hne. induction h as [| [n v] h IH]; cbn [set_header get_header].
  - rewrite (jsstring_eqb_neq other name Hne). reflexivity.
  - destruct (jsstring_eqb n other) eqn:Hn; cbn [get_header].
    + apply jsstring_eqb_eq in Hn. subst n.
      rewrite (jsstring_eqb_neq other name Hne). reflexivity.
    + destruct (jsstring_eqb n name); [reflexivity | exact IH].
Qed.

(** ** The constructor *)

Lemma client_constructor_facts (c : TruthlinkedClient.ConfigArgument) :
  (startsWith (js "https://") (TruthlinkedClient.arg_baseUrl c) = false ->
   TruthlinkedClient.constructor c
   = CThrow (TruthlinkedError (js "Base URL must use HTTPS") (Some 400)))
  /\ (startsWith (js "https://") (TruthlinkedClient.arg_baseUrl c) = true ->
      exists cl,
        TruthlinkedClient.constructor c = COk cl
        /\ SecureLicenseKey.asString (TruthlinkedClient.key cl)
           = TruthlinkedClient.arg_licenseKey c
        /\ TruthlinkedClient.signer cl
           = match TruthlinkedClient.arg_signRequests c with
             | Absent | Present (Some true) =>
                 Some (RequestSigner.mk
                         (hmac_sha256
                            (utf8_encode (js "truthlinked-request-signing-v1"))
                            (utf8_encode (TruthlinkedClient.arg_licenseKey c))))
             | Present (Some false) | Present None => None
             end).
Proof.
  unfold TruthlinkedClient.constructor. split; intros Hurl; rewrite Hurl.
  - reflexivity.
  - cbn [negb]. destruct c as [u k t [| [[|] |]]]; eexists;
      (split; [reflexivity |]); split; reflexivity.
Qed.

(** X14: the constructor throws [TruthlinkedError] with the message
    "Base URL must use HTTPS" and status 400 exactly when the base URL does
    not start with "https://".  Otherwise it returns a client that holds
    the configured license key; its timeout and [signRequests] are the
    defaults 30000 and [true] when the property is absent from the
    configuration, and the configured value, [undefined] included, when the
    property is present; it has a signer, derived from the license key,
    exactly when [signRequests] is absent or [true]. *)
Theorem client_constructor (c : TruthlinkedClient.ConfigArgument) :
  (startsWith (js "https://") (TruthlinkedClient.arg_baseUrl c) = false ->
   TruthlinkedClient.constructor c
   = CThrow (TruthlinkedError (js "Base URL must use HTTPS") (Some 400)))
  /\ (startsWith (js "https://") (TruthlinkedClient.arg_baseUrl c) = true ->
      exists cl,
        TruthlinkedClient.constructor c = COk cl
        /\ TruthlinkedClient.timeout (TruthlinkedClient.config cl)
           = match TruthlinkedClient.arg_timeout c with
             | Absent => Some 30000
             | Present v => v
             end
        /\ TruthlinkedClient.signRequests (TruthlinkedClient.config cl)
           = match TruthlinkedClient.arg_signRequests c with
             | Absent => Some true
             | Present v => v
             end
        /\ TruthlinkedClient.baseUrl (TruthlinkedClient.config cl)
           = TruthlinkedClient.arg_baseUrl c
        /\ SecureLicenseKey.asString (TruthlinkedClient.key cl)
           = TruthlinkedClient.arg_licenseKey c
        /\ TruthlinkedClient.signer cl
           = match TruthlinkedClient.arg_signRequests c with
             | Absent | Present (Some true) =>
                 Some (RequestSigner.mk
                         (hmac_sha256
                            (utf8_encode (js "truthlinked-request-signing-v1"))
                            (utf8_encode (TruthlinkedClient.arg_licenseKey c))))
             | Present (Some false) | Present None => None
             end).
Proof.
  unfold TruthlinkedClient.constructor. split; intros Hurl; rewrite Hurl.
  - reflexivity.
  - cbn [negb]. destruct c as [u k t [| [[|] |]]]; eexists;
      (split; [reflexivity |]); repeat split; reflexivity.
Qed.

Lemma client_constructor_witness :
  startsWith (js "https://") (js "http://insecure.com") = false
  /\ TruthlinkedClient.constructor
       (TruthlinkedClient.mkArgument (js "http://insecure.com") (js "test_key")
          Absent Absent)
     = CThrow (TruthlinkedError (js "Base URL must use HTTPS") (Some 400))
  /\ startsWith (js "https://") (js "https://api.test.com") = true
  /\ exists cl,
      TruthlinkedClient.constructor
        (TruthlinkedClient.mkArgument (js "https://api.test.com") (js "test_key")
           Absent (Present None))
      = COk cl
      /\ TruthlinkedClient.timeout (TruthlinkedClient.config cl) = Some 30000
      /\ TruthlinkedClient.signer cl = None.
Proof.
  assert (H1 : startsWith (js "https://") (js "http://insecure.com") = false)
    by reflexivity.
  assert (H2 : startsWith (js "https://") (js "https://api.test.com") = true)
    by reflexivity.
  split; [exact H1 | split; [| split; [exact H2 |]]].
  - exact (proj1 (client_constructor
                    (TruthlinkedClient.mkArgument (js "http://insecure.com")
                       (js "test_key") Absent Absent)) H1).
  - destruct (proj2 (client_constructor
                       (TruthlinkedClient.mkArgument (js "https://api.test.com")
                          (js "test_key") Absent (Present None))) H2)
      as (cl & Hc & Ht & _ & _ & _ & Hs).
    exists cl. split; [exact Hc | split; [exact Ht | exact Hs]].
Defined.

(** ** The request interceptor *)

Lemma interceptor_signed (now : Z) (self : TruthlinkedClient.t)
    (s : RequestSigner.t) (m u : jsstring) (r : TruthlinkedClient.Request) :
  TruthlinkedClient.signer self = Some s ->
  TruthlinkedClient.method r = Some m -> m <> [] ->
  TruthlinkedClient.url r = Some u -> u <> [] ->
  exists r',
    TruthlinkedClient.request_interceptor now self r = Ret r'
    /\ TruthlinkedClient.method r' = Some m
    /\ TruthlinkedClient.url r' = Some u
    /\ TruthlinkedClient.data r' = TruthlinkedClient.data r
    /\ get_header (js "X-Timestamp") (TruthlinkedClient.headers r')
       = Some (decimal (now / 1000))
    /\ get_header (js "X-Signature") (TruthlinkedClient.headers r')
       = Some (RequestSigner.mac s
                 (RequestSigner.message (toUpperCase m) u (decimal (now / 1000))
                    (RequestSigner.bodyStr (TruthlinkedClient.data r))))
    /\ get_header (js "X-License-Key") (TruthlinkedClient.headers r')
       = Some (SecureLicenseKey.asString (TruthlinkedClient.key self)).
Proof.
  intros Hs Hm Hm0 Hu Hu0. unfold TruthlinkedClient.request_interceptor.
  rewrite Hs, Hm, Hu. cbn [TruthlinkedClient.text_or_empty].
  destruct m as [| m0 m]; [contradiction |].
  destruct u as [| u0 u]; [contradiction |].
  unfold interceptor_sign. cbn [length Nat.eqb negb andb].
  unfold RequestSigner.sign. rewrite !bind_ret.
  cbn [RequestSigner.signature RequestSigner.timestamp].
  eexists. split; [reflexivity |].
  cbn [TruthlinkedClient.method TruthlinkedClient.url TruthlinkedClient.data
       TruthlinkedClient.headers].
  repeat split.
  - rewrite get_set_other by discriminate.
    rewrite get_set_other by discriminate. apply get_set_same.
  - rewrite get_set_other by discriminate. apply get_set_same.
  - apply get_set_same.
Qed.

(** X15: a request that a client signs verifies on the receiving side.
    For a client built with an https base URL and with [signRequests]
    absent from the configuration or [true], and a request with a
    non-empty method and URL, the interceptor sets X-Timestamp and
    X-Signature so that a [RequestSigner] built from the same license key
    accepts them for the upper-cased method, the URL and the body text;
    X-License-Key carries the license key itself. *)
Theorem client_request_verifies
    (now : Z) (c : TruthlinkedClient.ConfigArgument)
    (m u : jsstring) (r : TruthlinkedClient.Request) :
  startsWith (js "https://") (TruthlinkedClient.arg_baseUrl c) = true ->
  TruthlinkedClient.arg_signRequests c = Absent
  \/ TruthlinkedClient.arg_signRequests c = Present (Some true) ->
  TruthlinkedClient.method r = Some m -> m <> [] ->
  TruthlinkedClient.url r = Some u -> u <> [] ->
  exists cl r' timestamp signature,
    TruthlinkedClient.constructor c = COk cl
    /\ TruthlinkedClient.request_interceptor now cl r = Ret r'
    /\ get_header (js "X-Timestamp") (TruthlinkedClient.headers r')
       = Some timestamp
    /\ get_header (js "X-Signature") (TruthlinkedClient.headers r')
       = Some signature
    /\ get_header (js "X-License-Key") (TruthlinkedClient.headers r')
       = Some (TruthlinkedClient.arg_licenseKey c)
    /\ (server <- RequestSigner.constructor (TruthlinkedClient.arg_licenseKey c) ;;
        RequestSigner.verify server (toUpperCase m) u
          (RequestSigner.bodyStr (TruthlinkedClient.data r))
          signature timestamp)
       = Ret true.
Proof.
  intros Hurl Hsign Hm Hm0 Hu Hu0.
  destruct (proj2 (client_constructor_facts c) Hurl)
    as (cl & Hc & Hkey & Hsigner).
  assert (Hs : TruthlinkedClient.signer cl
               = Some (RequestSigner.mk
                         (hmac_sha256
                            (utf8_encode (js "truthlinked-request-signing-v1"))
                            (utf8_encode (TruthlinkedClient.arg_licenseKey c))))).
  { rewrite Hsigner. destruct Hsign as [-> | ->]; reflexivity. }
  destruct (interceptor_signed now cl _ m u r Hs Hm Hm0 Hu Hu0)
    as (r' & Hr & _ & _ & _ & Hts & Hsig & Hlk).
  exists cl, r'. do 2 eexists.
  split; [exact Hc |]. split; [exact Hr |]. split; [exact Hts |].
  split; [exact Hsig |]. split; [rewrite Hlk, Hkey; reflexivity |].
  unfold RequestSigner.constructor. rewrite bind_ret.
  unfold RequestSigner.verify. apply timingSafeEqual_refl.
Qed.

Lemma client_request_verifies_witness :
  startsWith (js "https://") (js "https://api.test.com") = true
  /\ js "post" <> [] /\ js "/v1/token" <> []
  /\ exists cl r',
      TruthlinkedClient.constructor
        (TruthlinkedClient.mkArgument (js "https://api.test.com") (js "test_key")
           Absent Absent) = COk cl
      /\ TruthlinkedClient.request_interceptor 1700000000123 cl
           (TruthlinkedClient.mkRequest (Some (js "post")) (Some (js "/v1/token"))
              JNull []) = Ret r'
      /\ get_header (js "X-License-Key") (TruthlinkedClient.headers r')
         = Some (js "test_key").
Proof.
  assert (H1 : startsWith (js "https://") (js "https://api.test.com") = true)
    by reflexivity.
  assert (H3 : js "post" <> []) by discriminate.
  assert (H4 : js "/v1/token" <> []) by discriminate.
  split; [exact H1 | split; [exact H3 | split; [exact H4 |]]].
  destruct (client_request_verifies 1700000000123
              (TruthlinkedClient.mkArgument (js "https://api.test.com")
                 (js "test_key") Absent Absent)
              (js "post") (js "/v1/token")
              (TruthlinkedClient.mkRequest (Some (js "post"))
                 (Some (js "/v1/token")) JNull [])
              H1 (or_introl eq_refl) eq_refl H3 eq_refl H4)
    as (cl & r' & ts & sg & Hc & Hr & _ & _ & Hlk & _).
  exists cl, r'. split; [exact Hc | split; [exact Hr | exact Hlk]].
Defined.

(** X16: when the client has no signer, or the request has no method or
    no URL (absent or empty), the interceptor signs nothing: the
    X-Timestamp and X-Signature headers stay as they were, while
    X-License-Key is still set to the license key. *)
Theorem interceptor_unsigned
    (now : Z) (self : TruthlinkedClient.t) (r : TruthlinkedClient.Request) :
  TruthlinkedClient.signer self = None
  \/ TruthlinkedClient.text_or_empty (TruthlinkedClient.method r) = []
  \/ TruthlinkedClient.text_or_empty (TruthlinkedClient.url r) = [] ->
  exists r',
    TruthlinkedClient.request_interceptor now self r = Ret r'
    /\ get_header (js "X-Timestamp") (TruthlinkedClient.headers r')
       = get_header (js "X-Timestamp") (TruthlinkedClient.headers r)
    /\ get_header (js "X-Signature") (TruthlinkedClient.headers r')
       = get_header (js "X-Signature") (TruthlinkedClient.headers r)
    /\ get_header (js "X-License-Key") (TruthlinkedClient.headers r')
       = Some (SecureLicenseKey.asString (TruthlinkedClient.key self)).
Proof.
  intros H. unfold TruthlinkedClient.request_interceptor.
  assert (Hnone : interceptor_sign now (TruthlinkedClient.signer self)
                    (TruthlinkedClient.text_or_empty (TruthlinkedClient.method r))
                    (TruthlinkedClient.text_or_empty (TruthlinkedClient.url r))
                    (TruthlinkedClient.data r) = Ret None).
  { unfold interceptor_sign.
    destruct (TruthlinkedClient.signer self) as [s |]; [| reflexivity].
    destruct H as [H | [H | H]]; [discriminate H | |]; rewrite H.
    - reflexivity.
    - cbn [length Nat.eqb negb]. rewrite andb_false_r. reflexivity. }
  rewrite Hnone, bind_ret. eexists. split; [reflexivity |].
  cbn [TruthlinkedClient.headers].
  split; [apply get_set_other; discriminate |].
  split; [apply get_set_other; discriminate | apply get_set_same].
Qed.

Lemma interceptor_unsigned_witness :
  TruthlinkedClient.signer
    (TruthlinkedClient.mk
       (TruthlinkedClient.mkConfig (js "https://api.test.com") (js "test_key")
          (Some 30000) (Some false))
       (SecureLicenseKey.mk (js "test_key")) None) = None
  /\ exists r',
      TruthlinkedClient.request_interceptor 1700000000123
        (TruthlinkedClient.mk
           (TruthlinkedClient.mkConfig (js "https://api.test.com")
              (js "test_key") (Some 30000) (Some false))
           (SecureLicenseKey.mk (js "test_key")) None)
        (TruthlinkedClient.mkRequest (Some (js "get")) (Some (js "/health"))
           JUndefined []) = Ret r'
      /\ get_header (js "X-Signature") (TruthlinkedClient.headers r') = None
      /\ get_header (js "X-License-Key") (TruthlinkedClient.headers r')
         = Some (js "test_key").
Proof.
  split; [reflexivity |].
  destruct (interceptor_unsigned 1700000000123
              (TruthlinkedClient.mk
                 (TruthlinkedClient.mkConfig (js "https://api.test.com")
                    (js "test_key") (Some 30000) (Some false))
                 (SecureLicenseKey.mk (js "test_key")) None)
              (TruthlinkedClient.mkRequest (Some (js "get")) (Some (js "/health"))
                 JUndefined [])
              (or_introl eq_refl))
    as (r' & Hr & _ & Hsig & Hlk).
  exists r'. split; [exact Hr | split; [exact Hsig | exact Hlk]].
Defined.

(** ** Destroying a client *)

Lemma client_destroy_facts (cl : TruthlinkedClient.t) :
  exists d,
    TruthlinkedClient.destroy cl = Ret d
    /\ SecureLicenseKey.asString (TruthlinkedClient.key d)
       = repeat 0 (length (SecureLicenseKey.asString (TruthlinkedClient.key cl)))
    /\ TruthlinkedClient.signer d
       = match TruthlinkedClient.signer cl with
         | Some s =>
             Some (RequestSigner.mk
                     (repeat 0 (length (RequestSigner.signingKey s))))
         | None => None
         end.
Proof.
  destruct cl as [c [k] s]. unfold TruthlinkedClient.destroy.
  cbn [TruthlinkedClient.key TruthlinkedClient.signer TruthlinkedClient.config].
  unfold SecureLicenseKey.destroy, RequestSigner.destroy,
    SecureLicenseKey.asString.
  cbn [SecureLicenseKey.key]. rewrite bind_ret.
  destruct s as [[sk] |]; cbn [RequestSigner.signingKey];
    rewrite ?bind_ret; eexists; (split; [reflexivity |]);
    cbn [TruthlinkedClient.key TruthlinkedClient.signer
         SecureLicenseKey.key RequestSigner.signingKey];
    rewrite ?fill_zero; split; reflexivity.
Qed.

(** X17: [destroy] on a client never throws; it replaces the license key
    by NUL characters of the same number, zeroes the signer's key when
    there is a signer, leaves the configuration alone, and a second
    [destroy] changes nothing. *)
Theorem client_destroy (cl : TruthlinkedClient.t) :
  exists d,
    TruthlinkedClient.destroy cl = Ret d
    /\ SecureLicenseKey.asString (TruthlinkedClient.key d)
       = repeat 0 (length (SecureLicenseKey.asString (TruthlinkedClient.key cl)))
    /\ TruthlinkedClient.signer d
       = match TruthlinkedClient.signer cl with
         | Some s =>
             Some (RequestSigner.mk
                     (repeat 0 (length (RequestSigner.signingKey s))))
         | None => None
         end
    /\ TruthlinkedClient.config d = TruthlinkedClient.config cl
    /\ TruthlinkedClient.destroy d = Ret d.
Proof.
  destruct cl as [c [k] s]. unfold TruthlinkedClient.destroy.
  cbn [TruthlinkedClient.key TruthlinkedClient.signer TruthlinkedClient.config].
  unfold SecureLicenseKey.destroy, RequestSigner.destroy,
    SecureLicenseKey.asString.
  cbn [SecureLicenseKey.key]. rewrite bind_ret.
  destruct s as [[sk] |]; cbn [RequestSigner.signingKey];
    rewrite ?bind_ret; eexists; (split; [reflexivity |]);
    cbn [TruthlinkedClient.key TruthlinkedClient.signer TruthlinkedClient.config
         SecureLicenseKey.key RequestSigner.signingKey];
    rewrite ?fill_zero, ?repeat_length; repeat split; reflexivity.
Qed.

(** X18: a destroyed client goes on sending requests.  For a client built
    with an https base URL and with [signRequests] absent from the
    configuration or [true], then destroyed, the interceptor still returns
    normally: X-License-Key carries NUL characters, as many as the license
    key had characters, and X-Signature is the HMAC-SHA256 of the canonical
    message under the empty key, whatever the license key was. *)
Theorem destroyed_client_request
    (now : Z) (c : TruthlinkedClient.ConfigArgument)
    (m u : jsstring) (r : TruthlinkedClient.Request) :
  startsWith (js "https://") (TruthlinkedClient.arg_baseUrl c) = true ->
  TruthlinkedClient.arg_signRequests c = Absent
  \/ TruthlinkedClient.arg_signRequests c = Present (Some true) ->
  TruthlinkedClient.method r = Some m -> m <> [] ->
  TruthlinkedClient.url r = Some u -> u <> [] ->
  exists cl d r',
    TruthlinkedClient.constructor c = COk cl
    /\ TruthlinkedClient.destroy cl = Ret d
    /\ TruthlinkedClient.request_interceptor now d r = Ret r'
    /\ get_header (js "X-License-Key") (TruthlinkedClient.headers r')
       = Some (repeat 0 (length (TruthlinkedClient.arg_licenseKey c)))
    /\ get_header (js "X-Signature") (TruthlinkedClient.headers r')
       = Some (base64_encode
                 (hmac_sha256 []
                    (utf8_encode
                       (RequestSigner.message (toUpperCase m) u
                          (decimal (now / 1000))
                          (RequestSigner.bodyStr (TruthlinkedClient.data r)))))).
Proof.
  intros Hurl Hsign Hm Hm0 Hu Hu0.
  destruct (proj2 (client_constructor_facts c) Hurl)
    as (cl & Hc & Hkey & Hsigner).
  destruct (client_destroy_facts cl) as (d & Hd & Hdk & Hds).
  assert (Hs : TruthlinkedClient.signer d
               = Some (RequestSigner.mk (repeat 0 32%nat))).
  { rewrite Hds, Hsigner.
    destruct Hsign as [-> | ->]; cbn [RequestSigner.signingKey];
      rewrite hmac_length; reflexivity. }
  destruct (interceptor_signed now d _ m u r Hs Hm Hm0 Hu Hu0)
    as (r' & Hr & _ & _ & _ & _ & Hsig & Hlk).
  exists cl, d, r'.
  split; [exact Hc |]. split; [exact Hd |]. split; [exact Hr |].
  split; [rewrite Hlk, Hdk, Hkey; reflexivity |].
  rewrite Hsig. unfold RequestSigner.mac. cbn [RequestSigner.signingKey].
  rewrite zero_key_is_empty_key. reflexivity.
Qed.

Lemma destroyed_client_request_witness :
  startsWith (js "https://") (js "https://api.test.com") = true
  /\ js "post" <> [] /\ js "/v1/token" <> []
  /\ exists cl d r',
      TruthlinkedClient.constructor
        (TruthlinkedClient.mkArgument (js "https://api.test.com") (js "test_key")
           Absent (Present (Some true))) = COk cl
      /\ TruthlinkedClient.destroy cl = Ret d
      /\ TruthlinkedClient.request_interceptor 1700000000123 d
           (TruthlinkedClient.mkRequest (Some (js "post")) (Some (js "/v1/token"))
              JNull []) = Ret r'
      /\ get_header (js "X-License-Key") (TruthlinkedClient.headers r')
         = Some (repeat 0 8%nat).
Proof.
  assert (H1 : startsWith (js "https://") (js "https://api.test.com") = true)
    by reflexivity.
  assert (H3 : js "post" <> []) by discriminate.
  assert (H4 : js "/v1/token" <> []) by discriminate.
  split; [exact H1 | split; [exact H3 | split; [exact H4 |]]].
  destruct (destroyed_client_request 1700000000123
              (TruthlinkedClient.mkArgument (js "https://api.test.com")
                 (js "test_key") Absent (Present (Some true)))
              (js "post") (js "/v1/token")
              (TruthlinkedClient.mkRequest (Some (js "post"))
                 (Some (js "/v1/token")) JNull [])
              H1 (or_intror eq_refl) eq_refl H3 eq_refl H4)
    as (cl & d & r' & Hc & Hd & Hr & Hlk & _).
  exists cl, d, r'.
  split; [exact Hc | split; [exact Hd | split; [exact Hr | exact Hlk]]].
Defined.
